(** * node-dbhub: the DBHub client (src/index.js) as a shallow embedding

    The client is one JavaScript class.  Its constructor stores three
    fields, [get_endpoints] builds the table of versioned paths,
    [make_request] builds a form body, posts it with [fetch] and turns the
    answer into a value or an exception, and seven thin methods shape their
    parameters and call [make_request].

    JavaScript strings are sequences of UTF-16 code units, exceptions are
    values, and every method runs against the object [this] and the host
    (network, [btoa]).  The embedding keeps all three: strings are lists of
    code units, a method is a function from a state (the object and the
    host) to an outcome and a state, and an outcome is a returned value or
    a thrown one.  A rejected promise under [await] is a throw. *)

From Stdlib Require Import List Arith NArith Bool String Ascii Lia Decimal.
Import ListNotations.

Set Warnings "-register-all".
Local Open Scope N_scope.
Local Open Scope list_scope.

(** ** Strings *)

(** A JavaScript string: its UTF-16 code units, in order. *)
Definition jsstring := list N.

(** A string literal of the source (all of them are ASCII). *)
Definition lit (s : string) : jsstring :=
  map N_of_ascii (list_ascii_of_string s).

Fixpoint jsstring_eqb (a b : jsstring) : bool :=
  match a, b with
  | [], [] => true
  | x :: a', y :: b' => (x =? y) && jsstring_eqb a' b'
  | _, _ => false
  end.

(** [Number::toString] on a non-negative integer: its decimal digits. *)
Fixpoint uint_digits (d : Decimal.uint) : jsstring :=
  match d with
  | Nil => []
  | D0 r => 48 :: uint_digits r
  | D1 r => 49 :: uint_digits r
  | D2 r => 50 :: uint_digits r
  | D3 r => 51 :: uint_digits r
  | D4 r => 52 :: uint_digits r
  | D5 r => 53 :: uint_digits r
  | D6 r => 54 :: uint_digits r
  | D7 r => 55 :: uint_digits r
  | D8 r => 56 :: uint_digits r
  | D9 r => 57 :: uint_digits r
  end.

Definition integer_to_string (n : N) : jsstring := uint_digits (N.to_uint n).

(** The code points of a string, as the string iterator yields them: a high
    surrogate followed by a low surrogate is one code point above U+FFFF,
    every other code unit (a lone surrogate too) is its own code point. *)
Definition is_high_surrogate (c : N) : bool := (0xD800 <=? c) && (c <=? 0xDBFF).
Definition is_low_surrogate (c : N) : bool := (0xDC00 <=? c) && (c <=? 0xDFFF).

Fixpoint code_points (s : jsstring) : list N :=
  match s with
  | [] => []
  | hi :: tl =>
      match tl with
      | lo :: rest =>
          if is_high_surrogate hi && is_low_surrogate lo
          then 0x10000 + N.shiftl (hi - 0xD800) 10 + (lo - 0xDC00) :: code_points rest
          else hi :: code_points tl
      | [] => [hi]
      end
  end.

Definition is_surrogate (c : N) : bool := is_high_surrogate c || is_low_surrogate c.

(** A string is well formed when none of its code points is a surrogate:
    every surrogate code unit is half of a pair. *)
Definition well_formed (s : jsstring) : bool :=
  forallb (fun cp => negb (is_surrogate cp)) (code_points s).

(** The conversion to a [USVString] that the host applies to a string
    argument of [FormData.append]: a surrogate that is not half of a pair
    becomes U+FFFD, everything else stays. *)
Fixpoint to_usv (s : jsstring) : jsstring :=
  match s with
  | [] => []
  | c :: tl =>
      if is_high_surrogate c then
        match tl with
        | lo :: rest =>
            if is_low_surrogate lo then c :: lo :: to_usv rest
            else 0xFFFD :: to_usv tl
        | [] => [0xFFFD]
        end
      else if is_low_surrogate c then 0xFFFD :: to_usv tl
      else c :: to_usv tl
  end.

(** ** Exceptions and outcomes *)

(** A thrown value.  [ErrorObject] is an error object with its [name], its
    [message] and its [cause] property when it has one: what [new Error(..)]
    builds, and what the host rejects a promise with.  The other three are
    raised by the host inside the client's own code, with a message text
    that depends on the engine: the DOMException of [btoa], the TypeError of
    destructuring [null] or [undefined], and the TypeError of converting to
    a string an object that has no usable [toString]. *)
Inductive exn : Type :=
| ErrorObject (name : jsstring) (message : jsstring) (cause : option exn)
| InvalidCharacterError
| DestructureTypeError
| ConversionTypeError.

Definition exn_name (e : exn) : jsstring :=
  match e with
  | ErrorObject name _ _ => name
  | InvalidCharacterError => lit "InvalidCharacterError"
  | DestructureTypeError => lit "TypeError"
  | ConversionTypeError => lit "TypeError"
  end.

Definition exn_cause (e : exn) : option exn :=
  match e with
  | ErrorObject _ _ cause => cause
  | _ => None
  end.

(** [new Error(message, options)]: the object gets a [cause] exactly when
    [options] is an object that has a property [cause], and then it is that
    property's value.  [options] is here absent or an error object. *)
Definition new_Error (message : jsstring) (options : option exn) : exn :=
  ErrorObject (lit "Error") message
    (match options with
     | Some o => exn_cause o
     | None => None
     end).

Inductive result (A : Type) : Type :=
| Return (a : A)
| Throw (e : exn).
Arguments Return {A} a.
Arguments Throw {A} e.

(** ** Values *)

(** The JavaScript values the client handles: what [response.json()] yields,
    what a caller puts in a parameter mapping, and [undefined] for a property
    that is not there.  They are data: a plain object or an array with the
    usual prototype, whose properties are values again and never functions.
    A Number is kept as its [ToString] rendering: the client never computes
    with one, it only prints it or passes it on.  An object is the list of
    its own enumerable properties in the order [Object.entries] lists
    them. *)
Inductive value : Type :=
| VUndefined
| VNull
| VBool (b : bool)
| VNum (rendering : jsstring)
| VStr (s : jsstring)
| VArr (items : list value)
| VObj (properties : list (jsstring * value)).

Definition object := list (jsstring * value).

(** An object whose properties are all strings, as [get_endpoints] builds. *)
Definition table := list (jsstring * jsstring).

(** The own property [key] of an object, if it has one. *)
Fixpoint lookup {A} (o : list (jsstring * A)) (key : jsstring) : option A :=
  match o with
  | [] => None
  | (k, v) :: rest => if jsstring_eqb k key then Some v else lookup rest key
  end.

Definition has_property {A} (o : list (jsstring * A)) (key : jsstring) : bool :=
  existsb (fun kv => jsstring_eqb (fst kv) key) o.

(** Property read [o.key] on an object: [undefined] when there is none. *)
Definition get_property (o : object) (key : jsstring) : value :=
  match lookup o key with
  | Some v => v
  | None => VUndefined
  end.

Definition Object_entries (o : object) : list (jsstring * value) := o.

(** [Array.prototype.join] with a comma: [null] and [undefined] items print
    as nothing, every other item as its string form, and the first item
    whose conversion throws makes the whole throw. *)
Fixpoint join_with (print : value -> result jsstring) (items : list value)
  : result jsstring :=
  match items with
  | [] => Return []
  | x :: rest =>
      match (match x with
             | VUndefined | VNull => Return []
             | _ => print x
             end) with
      | Throw e => Throw e
      | Return piece =>
          match rest with
          | [] => Return piece
          | _ :: _ =>
              match join_with print rest with
              | Throw e => Throw e
              | Return tail => Return (piece ++ lit "," ++ tail)
              end
          end
      end
  end.

(** [ToString], as a template literal [`${v}`] and [FormData.append] apply
    it.  An array is joined with commas.  A plain object prints as
    [[object Object]] through the [toString] it inherits; when it has a
    property [toString] of its own, which is data and cannot be called,
    neither that nor [valueOf] yields a primitive and the conversion throws
    a TypeError. *)
Fixpoint ToString (v : value) : result jsstring :=
  match v with
  | VUndefined => Return (lit "undefined")
  | VNull => Return (lit "null")
  | VBool true => Return (lit "true")
  | VBool false => Return (lit "false")
  | VNum rendering => Return rendering
  | VStr s => Return s
  | VArr items => join_with ToString items
  | VObj properties =>
      if has_property properties (lit "toString") then Throw ConversionTypeError
      else Return (lit "[object Object]")
  end.

(** ** The host: base64 and the network *)

Definition base64_alphabet : jsstring :=
  lit "ABCDEFGHIJKLMNOPQRSTUVWXYZabcdefghijklmnopqrstuvwxyz0123456789+/".

Definition base64_char (i : N) : N := nth (N.to_nat i) base64_alphabet 0.

Definition pad : N := 61.

(** Base64 of a sequence of bytes, three bytes to four characters, the last
    group padded with [=]. *)
Fixpoint base64_encode (bytes : list N) : jsstring :=
  match bytes with
  | [] => []
  | a :: [] =>
      [ base64_char (N.shiftr a 2);
        base64_char (N.shiftl (N.land a 3) 4);
        pad; pad ]
  | a :: b :: [] =>
      [ base64_char (N.shiftr a 2);
        base64_char (N.lor (N.shiftl (N.land a 3) 4) (N.shiftr b 4));
        base64_char (N.shiftl (N.land b 15) 2);
        pad ]
  | a :: b :: c :: rest =>
      [ base64_char (N.shiftr a 2);
        base64_char (N.lor (N.shiftl (N.land a 3) 4) (N.shiftr b 4));
        base64_char (N.lor (N.shiftl (N.land b 15) 2) (N.shiftr c 6));
        base64_char (N.land c 63) ] ++ base64_encode rest
  end.

Definition is_latin1 (c : N) : bool := c <=? 0xFF.

(** The host's [btoa]: a code unit above U+00FF throws, otherwise each code
    unit is one byte and the result is the base64 of the bytes. *)
Definition btoa (data : jsstring) : result jsstring :=
  if forallb is_latin1 data then Return (base64_encode data)
  else Throw InvalidCharacterError.

(** A [FormData]: its entries in the order they were appended.
    [append(name, value)] converts the value to a string, which can throw,
    converts name and string to USVStrings, and adds the entry at the end,
    also when the name is there already. *)
Definition FormData := list (jsstring * jsstring).

Definition FormData_new : FormData := [].

Definition FormData_append (body : FormData) (name : jsstring) (v : value)
  : result FormData :=
  match ToString v with
  | Return s => Return (body ++ [(to_usv name, to_usv s)])
  | Throw e => Throw e
  end.

(** [getAll(name)] and [get(name)]: the values of the entries of that name,
    and the first of them. *)
Definition FormData_getAll (body : FormData) (name : jsstring) : list jsstring :=
  map snd (filter (fun e => jsstring_eqb (fst e) (to_usv name)) body).

Definition FormData_get (body : FormData) (name : jsstring) : option jsstring :=
  hd_error (FormData_getAll body name).

(** A call of [fetch]: the URL and the options it was given. *)
Record Request : Type := mkRequest {
  req_url : jsstring;
  req_method : jsstring;
  req_body : FormData
}.

(** A [Response] as the client reads it: [status], [ok] (the status is in
    200..299) and what [json()] settles to, the parsed body or the
    rejection when the body does not parse. *)
Record Response : Type := mkResponse {
  status : N;
  json_result : result value
}.

Definition ok (r : Response) : bool := (200 <=? status r) && (status r <=? 299).

Inductive FetchResult : Type :=
| Resolved (r : Response)
| Rejected (error : exn).

(** The network: how it answers a request, and the requests sent so far,
    oldest first. *)
Record World : Type := mkWorld {
  net : Request -> FetchResult;
  sent : list Request
}.

(** ** The client object and its methods *)

(** The object a [new DBHub(api_key)] builds.  Its endpoint table holds
    strings. *)
Record DBHub : Type := mkDBHub {
  base_url : jsstring;
  endpoints : table;
  api_key : jsstring
}.

(** What a method runs against: the object it was called on and the host. *)
Record State : Type := mkState {
  this : DBHub;
  world : World
}.

(** A method body: from a state to an outcome and the state it leaves.  A
    throw keeps the state reached so far. *)
Definition M (A : Type) : Type := State -> result A * State.

Definition ret {A} (a : A) : M A := fun st => (Return a, st).

Definition throw {A} (e : exn) : M A := fun st => (Throw e, st).

Definition bind {A B} (m : M A) (k : A -> M B) : M B :=
  fun st =>
    match m st with
    | (Return a, st') => k a st'
    | (Throw e, st') => (Throw e, st')
    end.

(** [promise.catch(handler)] under [await]. *)
Definition catch {A} (m : M A) (handler : exn -> M A) : M A :=
  fun st =>
    match m st with
    | (Return a, st') => (Return a, st')
    | (Throw e, st') => handler e st'
    end.

Definition lift {A} (r : result A) : M A := fun st => (r, st).

Definition get_this : M DBHub := fun st => (Return (this st), st).

Declare Scope js_scope.
Delimit Scope js_scope with js.
Notation "x <- m ;; k" := (bind m (fun x => k))
  (at level 61, m at next level, right associativity) : js_scope.
Local Open Scope js_scope.

(** [for (const item of items) { acc = step(acc, item) }], where a step can
    throw. *)
Fixpoint for_each {A B} (items : list A) (acc : B) (step : B -> A -> M B) : M B :=
  match items with
  | [] => ret acc
  | item :: rest => acc' <- step acc item ;; for_each rest acc' step
  end.

(** [await fetch(url, {method, body})]: the request goes out, and the
    network resolves it with a response or rejects it. *)
Definition fetch (url : jsstring) (method : jsstring) (body : FormData) : M Response :=
  fun st =>
    let req := mkRequest url method body in
    let w := mkWorld (net (world st)) (sent (world st) ++ [req]) in
    match net (world st) req with
    | Resolved r => (Return r, mkState (this st) w)
    | Rejected error => (Throw error, mkState (this st) w)
    end.

(** [await response.json()]. *)
Definition json (response : Response) : M value := lift (json_result response).

(** [const {error} = v]: throws on [null] and [undefined]; reads the
    property on an object; a primitive or an array has no [error]. *)
Definition destructure_error (v : value) : M value :=
  match v with
  | VUndefined | VNull => throw DestructureTypeError
  | VObj properties => ret (get_property properties (lit "error"))
  | _ => ret VUndefined
  end.

(** [get_endpoints()], index.js lines 20-34. *)
Definition get_endpoints : table :=
  let version := 1 in
  [ (lit "branches", lit "/v" ++ integer_to_string version ++ lit "/branches");
    (lit "columns", lit "/v" ++ integer_to_string version ++ lit "/columns");
    (lit "commits", lit "/v" ++ integer_to_string version ++ lit "/commits");
    (lit "databases", lit "/v" ++ integer_to_string version ++ lit "/databases");
    (lit "delete", lit "/v" ++ integer_to_string version ++ lit "/delete");
    (lit "execute", lit "/v" ++ integer_to_string version ++ lit "/execute");
    (lit "query", lit "/v" ++ integer_to_string version ++ lit "/query") ].

(** [get_endpoints()] of the earlier revision of the file (lines 19-30
    there): four operations. *)
Definition get_endpoints_earlier : table :=
  let version := 1 in
  [ (lit "databases", lit "/v" ++ integer_to_string version ++ lit "/databases");
    (lit "columns", lit "/v" ++ integer_to_string version ++ lit "/columns");
    (lit "query", lit "/v" ++ integer_to_string version ++ lit "/query");
    (lit "execute", lit "/v" ++ integer_to_string version ++ lit "/execute") ].

(** [!api_key] for an argument that is a string or absent. *)
Definition falsy (api_key : option jsstring) : bool :=
  match api_key with
  | None => true
  | Some [] => true
  | Some (_ :: _) => false
  end.

(** [new DBHub(api_key)], lines 11-18.  It runs against the host alone:
    there is no object before it. *)
Definition constructor (api_key : option jsstring) (w : World) : result DBHub * World :=
  if falsy api_key then (Throw (new_Error (lit "Missing required API key!") None), w)
  else
    let base_url := lit "https://api.dbhub.io" in
    let endpoints := get_endpoints in
    let api_key := match api_key with Some k => k | None => [] end in
    (Return (mkDBHub base_url endpoints api_key), w).

(** [make_request(url, parameters)], lines 36-62. *)
Definition make_request (url : jsstring) (parameters : object) : M value :=
  this <- get_this ;;
  let body := FormData_new in
  body <- lift (FormData_append body (lit "apikey") (VStr (api_key this))) ;;
  body <- for_each (Object_entries parameters) body
            (fun body entry => lift (FormData_append body (fst entry) (snd entry))) ;;
  response <- catch (fetch url (lit "POST") body)
                (fun error => throw (new_Error (lit "Fetch failed!") (Some error))) ;;
  if negb (ok response) then
    parsed <- json response ;;
    error <- destructure_error parsed ;;
    text <- lift (ToString error) ;;
    throw (new_Error (lit "DBHub API error message: " ++ text
                      ++ lit " [HTTP status: " ++ integer_to_string (status response)
                      ++ lit "]") None)
  else
    json response.

(** A string property in a template literal: [undefined] prints as such. *)
Definition template_text (property : option jsstring) : jsstring :=
  match property with
  | Some s => s
  | None => lit "undefined"
  end.

(** The URL of an operation: [`${this.base_url}${this.endpoints.name}`]. *)
Definition endpoint_url (this : DBHub) (name : string) : jsstring :=
  base_url this ++ template_text (lookup (endpoints this) (lit name)).

(** [get_branches(dbowner, dbname)], lines 72-83. *)
Definition get_branches (dbowner dbname : jsstring) : M value :=
  this <- get_this ;;
  let url := endpoint_url this "branches" in
  let parameters := [ (lit "dbowner", VStr dbowner); (lit "dbname", VStr dbname) ] in
  data <- make_request url parameters ;;
  ret data.

(** [get_columns(dbowner, dbname, table)], lines 94-106. *)
Definition get_columns (dbowner dbname table : jsstring) : M value :=
  this <- get_this ;;
  let url := endpoint_url this "columns" in
  let parameters :=
    [ (lit "dbowner", VStr dbowner); (lit "dbname", VStr dbname);
      (lit "table", VStr table) ] in
  data <- make_request url parameters ;;
  ret data.

(** [get_commits(dbowner, dbname)], lines 116-127. *)
Definition get_commits (dbowner dbname : jsstring) : M value :=
  this <- get_this ;;
  let url := endpoint_url this "commits" in
  let parameters := [ (lit "dbowner", VStr dbowner); (lit "dbname", VStr dbname) ] in
  data <- make_request url parameters ;;
  ret data.

(** [get_databases(live = false)], lines 136-146: an omitted argument is
    [false]. *)
Definition get_databases (live : option bool) : M value :=
  let live := match live with Some b => b | None => false end in
  this <- get_this ;;
  let url := endpoint_url this "databases" in
  let parameters := [ (lit "live", VBool live) ] in
  data <- make_request url parameters ;;
  ret data.

(** [delete_database(dbname)], lines 155-165. *)
Definition delete_database (dbname : jsstring) : M value :=
  this <- get_this ;;
  let url := endpoint_url this "delete" in
  let parameters := [ (lit "dbname", VStr dbname) ] in
  data <- make_request url parameters ;;
  ret data.

(** [execute(dbowner, dbname, sql)], lines 176-188. *)
Definition execute (dbowner dbname sql : jsstring) : M value :=
  this <- get_this ;;
  let url := endpoint_url this "execute" in
  encoded <- lift (btoa sql) ;;
  let parameters :=
    [ (lit "dbowner", VStr dbowner); (lit "dbname", VStr dbname);
      (lit "sql", VStr encoded) ] in
  data <- make_request url parameters ;;
  ret data.

(** [query(dbowner, dbname, sql)], lines 199-211. *)
Definition query (dbowner dbname sql : jsstring) : M value :=
  this <- get_this ;;
  let url := endpoint_url this "query" in
  encoded <- lift (btoa sql) ;;
  let parameters :=
    [ (lit "dbowner", VStr dbowner); (lit "dbname", VStr dbname);
      (lit "sql", VStr encoded) ] in
  data <- make_request url parameters ;;
  ret data.

(** A call of a method of the object: the seven operations of the catalog,
    and the dispatcher called directly. *)
Inductive call : Type :=
| Call_make_request (url : jsstring) (parameters : object)
| Call_get_branches (dbowner dbname : jsstring)
| Call_get_columns (dbowner dbname table : jsstring)
| Call_get_commits (dbowner dbname : jsstring)
| Call_get_databases (live : option bool)
| Call_delete_database (dbname : jsstring)
| Call_execute (dbowner dbname sql : jsstring)
| Call_query (dbowner dbname sql : jsstring).

Definition invoke (c : call) : M value :=
  match c with
  | Call_make_request url parameters => make_request url parameters
  | Call_get_branches dbowner dbname => get_branches dbowner dbname
  | Call_get_columns dbowner dbname table => get_columns dbowner dbname table
  | Call_get_commits dbowner dbname => get_commits dbowner dbname
  | Call_get_databases live => get_databases live
  | Call_delete_database dbname => delete_database dbname
  | Call_execute dbowner dbname sql => execute dbowner dbname sql
  | Call_query dbowner dbname sql => query dbowner dbname sql
  end.

(** The requests a run sent: those in the final log after the initial ones. *)
Definition requests_of {A} (m : M A) (st : State) : list Request :=
  skipn (List.length (sent (world st))) (sent (world (snd (m st)))).

(** * Derived notions

    What a run of the dispatcher amounts to, stated once and proved below to
    be what the code does; the sample data of the examples; and the claims
    of the specification that the code departs from, as they are stated. *)

(** A value has a string form: [ToString] does not throw on it. *)
Definition printable (v : value) : bool :=
  match ToString v with
  | Return _ => true
  | Throw _ => false
  end.

(** The text [FormData.append] stores for a value that has a string form. *)
Definition sent_text (v : value) : jsstring :=
  match ToString v with
  | Return s => to_usv s
  | Throw _ => []
  end.

(** The entries the loop of [make_request] appends for a parameter mapping,
    or the exception of the first value that has no string form. *)
Fixpoint sent_entries (parameters : object) : result FormData :=
  match parameters with
  | [] => Return []
  | (key, v) :: rest =>
      match ToString v with
      | Throw e => Throw e
      | Return s =>
          match sent_entries rest with
          | Throw e => Throw e
          | Return entries => Return ((to_usv key, to_usv s) :: entries)
          end
      end
  end.

Definition api_error_message (text : jsstring) (code : N) : jsstring :=
  lit "DBHub API error message: " ++ text
  ++ lit " [HTTP status: " ++ integer_to_string code ++ lit "]".

(** What [make_request] makes of the network's answer. *)
Definition outcome_of_answer (a : FetchResult) : result value :=
  match a with
  | Rejected error => Throw (new_Error (lit "Fetch failed!") (Some error))
  | Resolved r =>
      if ok r then json_result r
      else
        match json_result r with
        | Throw e => Throw e
        | Return (VUndefined | VNull) => Throw DestructureTypeError
        | Return v =>
            match ToString (match v with
                            | VObj properties => get_property properties (lit "error")
                            | _ => VUndefined
                            end) with
            | Throw e => Throw e
            | Return text => Throw (new_Error (api_error_message text (status r)) None)
            end
        end
  end.

Definition after_request (st : State) (req : Request) : State :=
  mkState (this st) (mkWorld (net (world st)) (sent (world st) ++ [req])).

(** What a call hands to the dispatcher: the URL and the parameter mapping,
    or the exception of [btoa]. *)
Definition shape_of (this : DBHub) (c : call) : result (jsstring * object) :=
  match c with
  | Call_make_request url parameters => Return (url, parameters)
  | Call_get_branches dbowner dbname =>
      Return (endpoint_url this "branches",
              [ (lit "dbowner", VStr dbowner); (lit "dbname", VStr dbname) ])
  | Call_get_columns dbowner dbname table =>
      Return (endpoint_url this "columns",
              [ (lit "dbowner", VStr dbowner); (lit "dbname", VStr dbname);
                (lit "table", VStr table) ])
  | Call_get_commits dbowner dbname =>
      Return (endpoint_url this "commits",
              [ (lit "dbowner", VStr dbowner); (lit "dbname", VStr dbname) ])
  | Call_get_databases live =>
      Return (endpoint_url this "databases",
              [ (lit "live", VBool (match live with Some b => b | None => false end)) ])
  | Call_delete_database dbname =>
      Return (endpoint_url this "delete", [ (lit "dbname", VStr dbname) ])
  | Call_execute dbowner dbname sql =>
      match btoa sql with
      | Return encoded =>
          Return (endpoint_url this "execute",
                  [ (lit "dbowner", VStr dbowner); (lit "dbname", VStr dbname);
                    (lit "sql", VStr encoded) ])
      | Throw e => Throw e
      end
  | Call_query dbowner dbname sql =>
      match btoa sql with
      | Return encoded =>
          Return (endpoint_url this "query",
                  [ (lit "dbowner", VStr dbowner); (lit "dbname", VStr dbname);
                    (lit "sql", VStr encoded) ])
      | Throw e => Throw e
      end
  end.

(** The request a call sends, or the exception that stops it before the
    network: that of [btoa], or that of a parameter with no string form. *)
Definition request_of (this : DBHub) (c : call) : result Request :=
  match shape_of this c with
  | Throw e => Throw e
  | Return (url, parameters) =>
      match sent_entries parameters with
      | Throw e => Throw e
      | Return entries =>
          Return (mkRequest url (lit "POST")
                    ((lit "apikey", to_usv (api_key this)) :: entries))
      end
  end.

(** The input of a call lets it reach the network: the SQL text, if it has
    one, is within U+00FF, and the values of a mapping handed to the
    dispatcher all have a string form. *)
Definition reaches_network (c : call) : bool :=
  match c with
  | Call_make_request _ parameters => forallb (fun entry => printable (snd entry)) parameters
  | Call_execute _ _ sql | Call_query _ _ sql => forallb is_latin1 sql
  | _ => true
  end.

(** The network answered the call's request with [a]: the call sent one
    request, and [a] is what the network makes of it. *)
Definition answered (c : call) (st : State) (a : FetchResult) : Prop :=
  exists req, requests_of (invoke c) st = [req] /\ net (world st) req = a.

(** ** Sample data *)

Definition sample_client : DBHub :=
  mkDBHub (lit "https://api.dbhub.io") get_endpoints (lit "secret").

(** A network that gives every request the same answer, nothing sent yet. *)
Definition network_answering (a : FetchResult) : World := mkWorld (fun _ => a) [].

Definition sample_state (a : FetchResult) : State :=
  mkState sample_client (network_answering a).

Definition table_not_found : Response :=
  mkResponse 404 (Return (VObj [ (lit "error", VStr (lit "table not found")) ])).

Definition syntax_error : exn :=
  ErrorObject (lit "SyntaxError") (lit "Unexpected end of JSON input") None.

Definition unparseable (code : N) : Response := mkResponse code (Throw syntax_error).

Definition connection_refused : exn :=
  ErrorObject (lit "TypeError") (lit "Failed to fetch") None.

Definition empty_list_response : Response := mkResponse 200 (Return (VArr [])).

(** ** The claims as stated, where the code departs from them *)

(** C1 as stated, in its last part: whatever the failing response, the HTTP
    status can be read off the failure. *)
Definition failure_surfaces_status : Prop :=
  exists status_of : exn -> option N,
    forall c st r,
      answered c st (Resolved r) -> ok r = false ->
      exists e, fst (invoke c st) = Throw e /\ status_of e = Some (status r).

(** C2 as stated: the configured key is the one [apikey] value sent. *)
Definition only_configured_apikey_sent (c : call) (st : State) : Prop :=
  forall req,
    In req (requests_of (invoke c) st) ->
    FormData_getAll (req_body req) (lit "apikey") = [api_key (this st)].

(** C3 as stated: a transport failure differs in kind from an API
    rejection, and has the network's failure as its cause. *)
Definition transport_error_has_own_kind_and_cause : Prop :=
  forall c st error e c' st' r e',
    answered c st (Rejected error) -> fst (invoke c st) = Throw e ->
    answered c' st' (Resolved r) -> ok r = false -> fst (invoke c' st') = Throw e' ->
    exn_name e <> exn_name e' /\ exn_cause e = Some error.

(** The table the spec describes: one path [/v<version>/<name>] per name. *)
Definition versioned_paths (version : N) (names : list string) : table :=
  map (fun name =>
         (lit name, lit "/v" ++ integer_to_string version ++ lit "/" ++ lit name))
    names.

(** ** The earlier revision of the client *)

(** The earlier revision of the file has the same constructor over its own,
    shorter table (lines 10-17 and 19-30 there). *)
Definition constructor_earlier (api_key : option jsstring) (w : World) : result DBHub * World :=
  if falsy api_key then (Throw (new_Error (lit "Missing required API key!") None), w)
  else
    let base_url := lit "https://api.dbhub.io" in
    let endpoints := get_endpoints_earlier in
    let api_key := match api_key with Some k => k | None => [] end in
    (Return (mkDBHub base_url endpoints api_key), w).

(** Its methods: [make_request] and four operations, whose text is the text
    of the later revision's methods of the same names (lines 32-58, 67-77,
    88-100, 111-123 and 134-146 there), so the same definitions embed
    them. *)
Inductive call_earlier : Type :=
| Earlier_make_request (url : jsstring) (parameters : object)
| Earlier_get_databases (live : option bool)
| Earlier_get_columns (dbowner dbname table : jsstring)
| Earlier_query (dbowner dbname sql : jsstring)
| Earlier_execute (dbowner dbname sql : jsstring).

Definition invoke_earlier (c : call_earlier) : M value :=
  match c with
  | Earlier_make_request url parameters => make_request url parameters
  | Earlier_get_databases live => get_databases live
  | Earlier_get_columns dbowner dbname table => get_columns dbowner dbname table
  | Earlier_query dbowner dbname sql => query dbowner dbname sql
  | Earlier_execute dbowner dbname sql => execute dbowner dbname sql
  end.

(** The same call, made on a client of the later revision. *)
Definition later_call (c : call_earlier) : call :=
  match c with
  | Earlier_make_request url parameters => Call_make_request url parameters
  | Earlier_get_databases live => Call_get_databases live
  | Earlier_get_columns dbowner dbname table => Call_get_columns dbowner dbname table
  | Earlier_query dbowner dbname sql => Call_query dbowner dbname sql
  | Earlier_execute dbowner dbname sql => Call_execute dbowner dbname sql
  end.

(** ** Notions for the further properties *)

(** The entry of the endpoint table an operation reads; the dispatcher
    called directly reads none. *)
Definition endpoint_name (c : call) : option string :=
  match c with
  | Call_make_request _ _ => None
  | Call_get_branches _ _ => Some "branches"%string
  | Call_get_columns _ _ _ => Some "columns"%string
  | Call_get_commits _ _ => Some "commits"%string
  | Call_get_databases _ => Some "databases"%string
  | Call_delete_database _ => Some "delete"%string
  | Call_execute _ _ _ => Some "execute"%string
  | Call_query _ _ _ => Some "query"%string
  end.

(** The SQL text of a call that has one. *)
Definition sql_of (c : call) : option jsstring :=
  match c with
  | Call_execute _ _ sql | Call_query _ _ sql => Some sql
  | _ => None
  end.

(** A decoder for the encoding of [btoa], used to show that the encoding
    loses nothing.  It is no part of the client: decoding is the service's
    work. *)
Fixpoint index_in (c : N) (alphabet : jsstring) : N :=
  match alphabet with
  | [] => 0
  | x :: rest => if x =? c then 0 else 1 + index_in c rest
  end.

Definition base64_index (c : N) : N := index_in c base64_alphabet.

Fixpoint base64_decode (chars : jsstring) : list N :=
  match chars with
  | c0 :: c1 :: c2 :: c3 :: rest =>
      let i0 := base64_index c0 in
      let i1 := base64_index c1 in
      let i2 := base64_index c2 in
      let i3 := base64_index c3 in
      let b0 := N.lor (N.shiftl i0 2) (N.shiftr i1 4) in
      let b1 := N.lor (N.shiftl (N.land i1 15) 4) (N.shiftr i2 2) in
      let b2 := N.lor (N.shiftl (N.land i2 3) 6) i3 in
      if c2 =? pad then [b0]
      else if c3 =? pad then [b0; b1]
      else b0 :: b1 :: b2 :: base64_decode rest
  | _ => []
  end.

Definition byte_range : list N := map N.of_nat (seq 0 256).

(** What decoding needs of the first two characters of a group, and of the
    last two, as checks on the bytes they come from. *)
Definition check_first_pair (a b : N) : bool :=
  let i0 := N.shiftr a 2 in
  let i1 := N.lor (N.shiftl (N.land a 3) 4) (N.shiftr b 4) in
  (base64_index (base64_char i0) =? i0)
  && (base64_index (base64_char i1) =? i1)
  && (N.lor (N.shiftl i0 2) (N.shiftr i1 4) =? a)
  && (N.land i1 15 =? N.shiftr b 4).

Definition check_last_pair (b c : N) : bool :=
  let i2 := N.lor (N.shiftl (N.land b 15) 2) (N.shiftr c 6) in
  let i3 := N.land c 63 in
  (base64_index (base64_char i2) =? i2)
  && (base64_index (base64_char i3) =? i3)
  && negb (base64_char i2 =? pad)
  && negb (base64_char i3 =? pad)
  && (N.lor (N.shiftl (N.shiftr b 4) 4) (N.shiftr i2 2) =? b)
  && (N.lor (N.shiftl (N.land i2 3) 6) i3 =? c).

(** * Properties *)

(** ** How a run of the dispatcher unfolds *)

Lemma for_each_append_run (parameters : object) (body : FormData) (st : State) :
  for_each parameters body
    (fun body entry => lift (FormData_append body (fst entry) (snd entry))) st
  = match sent_entries parameters with
    | Return entries => (Return (body ++ entries), st)
    | Throw e => (Throw e, st)
    end.
Proof.
  revert body.
  induction parameters as [| [key v] rest IH]; intros body.
  - simpl. now rewrite app_nil_r.
  - cbn [for_each sent_entries fst snd].
    unfold bind at 1. unfold lift at 1. unfold FormData_append.
    destruct (ToString v) as [s | e]; [| reflexivity].
    rewrite IH.
    destruct (sent_entries rest) as [entries | e]; [| reflexivity].
    now rewrite <- app_assoc.
Qed.

Lemma make_request_run (url : jsstring) (parameters : object) (st : State) :
  make_request url parameters st
  = match sent_entries parameters with
    | Throw e => (Throw e, st)
    | Return entries =>
        (outcome_of_answer
           (net (world st)
              (mkRequest url (lit "POST")
                 ((lit "apikey", to_usv (api_key (this st))) :: entries))),
         after_request st
           (mkRequest url (lit "POST")
              ((lit "apikey", to_usv (api_key (this st))) :: entries)))
    end.
Proof.
  unfold make_request, Object_entries.
  unfold bind at 1. unfold get_this at 1.
  unfold bind at 1. unfold lift at 1.
  change (FormData_append FormData_new (lit "apikey") (VStr (api_key (this st))))
    with (Return (A := FormData) [(lit "apikey", to_usv (api_key (this st)))]).
  cbv iota beta.
  unfold bind at 1. rewrite for_each_append_run.
  destruct (sent_entries parameters) as [entries | e]; [| reflexivity].
  change ([(lit "apikey", to_usv (api_key (this st)))] ++ entries)
    with ((lit "apikey", to_usv (api_key (this st))) :: entries).
  unfold bind, catch, fetch, after_request, outcome_of_answer.
  destruct (net (world st)
              (mkRequest url (lit "POST")
                 ((lit "apikey", to_usv (api_key (this st))) :: entries)))
    as [r | error]; [| reflexivity].
  unfold json, lift, throw, destructure_error, ret, api_error_message.
  destruct (ok r); simpl; [reflexivity |].
  destruct (json_result r) as [[ | | b | n | s | items | properties] | e];
    try reflexivity.
  destruct (ToString (get_property properties (lit "error"))); reflexivity.
Qed.

Lemma skipn_length_app {A} (l r : list A) : skipn (List.length l) (l ++ r) = r.
Proof. induction l as [| x l IH]; simpl; auto. Qed.

Lemma bind_ret_run {A} (m : M A) (st : State) :
  bind m (fun data => ret data) st = m st.
Proof.
  unfold bind, ret. destruct (m st) as [[a | e] st']; reflexivity.
Qed.

Lemma invoke_run (c : call) (st : State) :
  invoke c st
  = match shape_of (this st) c with
    | Return (url, parameters) => make_request url parameters st
    | Throw e => (Throw e, st)
    end.
Proof.
  destruct c; simpl;
    try (unfold get_branches, get_columns, get_commits, get_databases, delete_database;
         unfold bind at 1; unfold get_this at 1; apply bind_ret_run).
  - reflexivity.
  - unfold execute. unfold bind at 1. unfold get_this at 1.
    unfold bind at 1. unfold lift.
    destruct (btoa sql) as [encoded | e]; [apply bind_ret_run | reflexivity].
  - unfold query. unfold bind at 1. unfold get_this at 1.
    unfold bind at 1. unfold lift.
    destruct (btoa sql) as [encoded | e]; [apply bind_ret_run | reflexivity].
Qed.

(** A call throws before the network, in the state it started in, or sends
    its request and ends as the network's answer has it. *)
Lemma invoke_request (c : call) (st : State) :
  invoke c st
  = match request_of (this st) c with
    | Throw e => (Throw e, st)
    | Return req => (outcome_of_answer (net (world st) req), after_request st req)
    end.
Proof.
  rewrite invoke_run. unfold request_of.
  destruct (shape_of (this st) c) as [[url parameters] | e]; [| reflexivity].
  rewrite make_request_run.
  destruct (sent_entries parameters); reflexivity.
Qed.

Lemma requests_of_invoke (c : call) (st : State) :
  requests_of (invoke c) st
  = match request_of (this st) c with
    | Return req => [req]
    | Throw _ => []
    end.
Proof.
  unfold requests_of. rewrite invoke_request.
  destruct (request_of (this st) c) as [req | e].
  - apply skipn_length_app.
  - apply skipn_all.
Qed.

Lemma sent_entries_printable (parameters : object) :
  forallb (fun entry => printable (snd entry)) parameters = true ->
  sent_entries parameters
  = Return (map (fun entry => (to_usv (fst entry), sent_text (snd entry))) parameters).
Proof.
  induction parameters as [| [key v] rest IH]; [reflexivity |].
  cbn [forallb sent_entries map fst snd]. unfold printable at 1, sent_text at 1.
  destruct (ToString v) as [s | e]; [| discriminate].
  intros H. now rewrite (IH H).
Qed.

Lemma sent_entries_unprintable (parameters : object) :
  forallb (fun entry => printable (snd entry)) parameters = false ->
  exists e, sent_entries parameters = Throw e.
Proof.
  induction parameters as [| [key v] rest IH]; [discriminate |].
  cbn [forallb sent_entries snd]. unfold printable at 1.
  destruct (ToString v) as [s | e]; [| eauto].
  intros H. destruct (IH H) as [e He]. rewrite He. eauto.
Qed.

(** A call whose input lets it reach the network builds a request. *)
Lemma reaches_network_request (this : DBHub) (c : call) :
  reaches_network c = true -> exists req, request_of this c = Return req.
Proof.
  unfold request_of.
  destruct c; simpl; intros H; try (eexists; reflexivity).
  - rewrite (sent_entries_printable parameters H). eauto.
  - destruct live as [[|] |]; eexists; reflexivity.
  - unfold btoa. rewrite H. eexists; reflexivity.
  - unfold btoa. rewrite H. eexists; reflexivity.
Qed.

(** The run of such a call: one request, and the outcome that the network's
    answer to it decides. *)
Lemma invoke_reaching (c : call) (st : State) :
  reaches_network c = true ->
  exists req,
    requests_of (invoke c) st = [req]
    /\ invoke c st = (outcome_of_answer (net (world st) req), after_request st req).
Proof.
  intros H. destruct (reaches_network_request (this st) c H) as [req Hreq].
  exists req. now rewrite requests_of_invoke, invoke_request, Hreq.
Qed.


(** ** Strings and base64 *)

Lemma jsstring_eqb_eq (a b : jsstring) : jsstring_eqb a b = true <-> a = b.
Proof.
  revert b. induction a as [| x a IH]; intros [| y b]; simpl;
    try (split; [discriminate | discriminate]); try tauto.
  rewrite andb_true_iff, N.eqb_eq, IH.
  split; [intros [-> ->]; reflexivity | intros H; injection H; auto].
Qed.

(** The test vectors of RFC 4648, section 10. *)
Example base64_encode_vectors :
  map base64_encode [ lit "f"; lit "fo"; lit "foo"; lit "foob"; lit "fooba"; lit "foobar" ]
  = [ lit "Zg=="; lit "Zm8="; lit "Zm9v"; lit "Zm9vYg=="; lit "Zm9vYmE="; lit "Zm9vYmFy" ].
Proof. reflexivity. Qed.

Example code_points_of_pairs :
  code_points [ 0x48; 0xD83D; 0xDE00; 0xD800 ] = [ 0x48; 0x1F600; 0xD800 ].
Proof. reflexivity. Qed.

Example ToString_of_array :
  ToString (VArr [ VNull; VStr (lit "a"); VArr [ VBool true; VUndefined ]; VObj [] ])
  = Return (lit ",a,true,,[object Object]").
Proof. reflexivity. Qed.

Example ToString_of_object_with_own_toString :
  ToString (VObj [ (lit "toString", VStr (lit "x")) ]) = Throw ConversionTypeError
  /\ ToString (VArr [ VStr (lit "a"); VObj [ (lit "toString", VNull) ] ])
     = Throw ConversionTypeError.
Proof. split; reflexivity. Qed.

Example to_usv_of_lone_surrogates :
  to_usv [ 0x6F; 0xD83D ] = [ 0x6F; 0xFFFD ]
  /\ to_usv [ 0xDE00; 0x61; 0xD83D; 0xDE00; 0xD83D; 0x62 ]
     = [ 0xFFFD; 0x61; 0xD83D; 0xDE00; 0xFFFD; 0x62 ].
Proof. split; reflexivity. Qed.

(** Induction on a list three elements at a time, the way base64 reads it. *)
Lemma list_ind3 {A} (P : list A -> Prop) :
  P [] ->
  (forall a, P [a]) ->
  (forall a b, P [a; b]) ->
  (forall a b c rest, P rest -> P (a :: b :: c :: rest)) ->
  forall l, P l.
Proof.
  intros H0 H1 H2 H3 l.
  enough (H : P l /\ (forall a, P (a :: l)) /\ (forall a b, P (a :: b :: l)))
    by apply H.
  induction l as [| x l [IHa [IHb IHc]]].
  - repeat split; auto.
  - repeat split; auto.
Qed.

Lemma base64_encode_length (bytes : list N) :
  (List.length (base64_encode bytes) = 4 * ((List.length bytes + 2) / 3))%nat.
Proof.
  induction bytes as [| a | a b | a b c rest IH] using list_ind3; try reflexivity.
  change (base64_encode (a :: b :: c :: rest))
    with ([ base64_char (N.shiftr a 2);
            base64_char (N.lor (N.shiftl (N.land a 3) 4) (N.shiftr b 4));
            base64_char (N.lor (N.shiftl (N.land b 15) 2) (N.shiftr c 6));
            base64_char (N.land c 63) ] ++ base64_encode rest).
  rewrite length_app, IH.
  change (List.length (a :: b :: c :: rest)) with (3 + List.length rest)%nat.
  replace (3 + List.length rest + 2)%nat with (List.length rest + 2 + 1 * 3)%nat by lia.
  rewrite Nat.div_add by lia. simpl List.length. lia.
Qed.

(** The encoding is longer than a text that is not empty, so it is the text
    itself only for the empty one. *)
Lemma base64_encode_fixpoint (s : jsstring) : base64_encode s = s <-> s = [].
Proof.
  split; [| intros ->; reflexivity].
  intros H. apply (f_equal (@List.length N)) in H.
  rewrite base64_encode_length in H.
  destruct s as [| c s]; [reflexivity | exfalso].
  simpl List.length in H.
  pose proof (Nat.div_mod_eq (S (List.length s) + 2) 3) as Hd.
  pose proof (Nat.mod_upper_bound (S (List.length s) + 2) 3) as Hm.
  lia.
Qed.

Lemma is_latin1_high_surrogate (c : N) : is_high_surrogate c = true -> is_latin1 c = false.
Proof.
  unfold is_high_surrogate, is_latin1. intros H.
  apply andb_true_iff in H. destruct H as [H _].
  apply N.leb_le in H. apply N.leb_gt. lia.
Qed.

Lemma code_points_pair (hi lo : N) (rest : jsstring) :
  code_points (hi :: lo :: rest)
  = if is_high_surrogate hi && is_low_surrogate lo
    then 0x10000 + N.shiftl (hi - 0xD800) 10 + (lo - 0xDC00) :: code_points rest
    else hi :: code_points (lo :: rest).
Proof. reflexivity. Qed.

(** A string has a code unit above U+00FF exactly when it has a code point
    above U+00FF: a surrogate pair is two code units above it, and any other
    code unit is its own code point. *)
Lemma code_points_latin1 (s : jsstring) :
  forallb is_latin1 (code_points s) = forallb is_latin1 s.
Proof.
  enough (H : forall n s, (List.length s <= n)%nat ->
                forallb is_latin1 (code_points s) = forallb is_latin1 s)
    by (apply (H (List.length s)); lia).
  clear s. induction n as [| n IH]; intros s Hlen.
  - destruct s; [reflexivity | simpl in Hlen; lia].
  - destruct s as [| hi [| lo rest]]; try reflexivity.
    rewrite code_points_pair.
    destruct (is_high_surrogate hi && is_low_surrogate lo) eqn:Hpair.
    + apply andb_true_iff in Hpair. destruct Hpair as [Hhi _].
      generalize (N.shiftl (hi - 0xD800) 10). intros shifted.
      change (forallb is_latin1 (hi :: lo :: rest))
        with (is_latin1 hi && forallb is_latin1 (lo :: rest)).
      rewrite (is_latin1_high_surrogate hi Hhi).
      change (forallb is_latin1 (0x10000 + shifted + (lo - 0xDC00) :: code_points rest))
        with (is_latin1 (0x10000 + shifted + (lo - 0xDC00))
              && forallb is_latin1 (code_points rest)).
      replace (is_latin1 (0x10000 + shifted + (lo - 0xDC00))) with false;
        [reflexivity |].
      symmetry. unfold is_latin1. apply N.leb_gt. lia.
    + change (forallb is_latin1 (hi :: code_points (lo :: rest)))
        with (is_latin1 hi && forallb is_latin1 (code_points (lo :: rest))).
      rewrite IH by (simpl in Hlen |- *; lia). reflexivity.
Qed.

Lemma all_code_points_latin1 (s : jsstring) :
  Forall (fun cp => cp <= 0xFF) (code_points s) <-> forallb is_latin1 s = true.
Proof.
  rewrite <- code_points_latin1, forallb_forall, Forall_forall.
  unfold is_latin1. split; intros H x Hx.
  - apply N.leb_le. auto.
  - apply N.leb_le. auto.
Qed.

Lemma some_code_point_beyond_latin1 (s : jsstring) :
  Exists (fun cp => 0xFF < cp) (code_points s) <-> forallb is_latin1 s = false.
Proof.
  rewrite <- code_points_latin1.
  induction (code_points s) as [| cp rest IH]; simpl.
  - split; [intros H; inversion H | discriminate].
  - rewrite Exists_cons, IH.
    destruct (is_latin1 cp) eqn:Hcp; unfold is_latin1 in Hcp; simpl.
    + apply N.leb_le in Hcp.
      split; [intros [H | H]; [lia | exact H] | auto].
    + apply N.leb_gt in Hcp. split; auto.
Qed.

(** ** Conversions *)

Lemma to_usv_cons (c : N) (tl : jsstring) :
  to_usv (c :: tl)
  = if is_high_surrogate c then
      match tl with
      | lo :: rest =>
          if is_low_surrogate lo then c :: lo :: to_usv rest
          else 0xFFFD :: to_usv tl
      | [] => [0xFFFD]
      end
    else if is_low_surrogate c then 0xFFFD :: to_usv tl
    else c :: to_usv tl.
Proof. destruct tl; reflexivity. Qed.

Lemma to_usv_no_surrogate (s : jsstring) :
  forallb (fun c => negb (is_surrogate c)) s = true -> to_usv s = s.
Proof.
  induction s as [| c tl IH]; [reflexivity |].
  cbn [forallb]. rewrite andb_true_iff, negb_true_iff. unfold is_surrogate.
  rewrite orb_false_iff. intros [[Hhi Hlo] Htl].
  rewrite to_usv_cons, Hhi, Hlo, (IH Htl). reflexivity.
Qed.

Lemma base64_char_no_surrogate (i : N) : negb (is_surrogate (base64_char i)) = true.
Proof.
  unfold base64_char.
  assert (H : forallb (fun c => negb (is_surrogate c)) base64_alphabet = true)
    by reflexivity.
  rewrite forallb_forall in H.
  destruct (nth_in_or_default (N.to_nat i) base64_alphabet 0) as [Hin | ->].
  - now apply H.
  - reflexivity.
Qed.

Lemma base64_encode_no_surrogate (bytes : list N) :
  forallb (fun c => negb (is_surrogate c)) (base64_encode bytes) = true.
Proof.
  induction bytes as [| a | a b | a b c rest IH] using list_ind3.
  - reflexivity.
  - cbn [base64_encode forallb]. now rewrite !base64_char_no_surrogate.
  - cbn [base64_encode forallb]. now rewrite !base64_char_no_surrogate.
  - change (base64_encode (a :: b :: c :: rest))
      with ([ base64_char (N.shiftr a 2);
              base64_char (N.lor (N.shiftl (N.land a 3) 4) (N.shiftr b 4));
              base64_char (N.lor (N.shiftl (N.land b 15) 2) (N.shiftr c 6));
              base64_char (N.land c 63) ] ++ base64_encode rest).
    rewrite forallb_app, IH. cbn [forallb].
    now rewrite !base64_char_no_surrogate.
Qed.

(** The output of [btoa] is ASCII, so [FormData.append] stores it as it
    is. *)
Lemma to_usv_base64_encode (bytes : list N) :
  to_usv (base64_encode bytes) = base64_encode bytes.
Proof. apply to_usv_no_surrogate, base64_encode_no_surrogate. Qed.

Lemma is_surrogate_pair_value (hi lo : N) :
  is_surrogate (0x10000 + N.shiftl (hi - 0xD800) 10 + (lo - 0xDC00)) = false.
Proof.
  generalize (N.shiftl (hi - 0xD800) 10). intros shifted.
  unfold is_surrogate, is_high_surrogate, is_low_surrogate.
  rewrite orb_false_iff, !andb_false_iff, !N.leb_gt. lia.
Qed.

(** A well-formed string is its own USVString. *)
Lemma to_usv_well_formed (s : jsstring) : well_formed s = true -> to_usv s = s.
Proof.
  unfold well_formed.
  enough (H : forall n s, (List.length s <= n)%nat ->
                forallb (fun cp => negb (is_surrogate cp)) (code_points s) = true ->
                to_usv s = s)
    by (apply (H (List.length s)); lia).
  clear s. induction n as [| n IH]; intros s Hlen.
  - destruct s; [reflexivity | simpl in Hlen; lia].
  - destruct s as [| hi [| lo rest]]; [reflexivity | |].
    + cbn [code_points forallb]. rewrite andb_true_r, negb_true_iff.
      unfold is_surrogate. rewrite orb_false_iff. intros [Hhi Hlo].
      now rewrite to_usv_cons, Hhi, Hlo.
    + rewrite code_points_pair, to_usv_cons.
      destruct (is_high_surrogate hi) eqn:Hhi; cbn [andb].
      * destruct (is_low_surrogate lo) eqn:Hlo.
        -- cbn [forallb]. rewrite is_surrogate_pair_value. cbn [negb andb].
           intros H.
           rewrite (IH rest); [reflexivity | simpl in Hlen |- *; lia | exact H].
        -- cbn [forallb]. unfold is_surrogate at 1. rewrite Hhi. discriminate.
      * cbn [forallb]. rewrite andb_true_iff, negb_true_iff.
        unfold is_surrogate at 1. rewrite Hhi. cbn [orb].
        intros [Hlow H]. rewrite Hlow.
        rewrite (IH (lo :: rest)); [reflexivity | simpl in Hlen |- *; lia | exact H].
Qed.

Lemma join_with_throws (items : list value) (e : exn) :
  Forall (fun v => forall e, ToString v = Throw e -> e = ConversionTypeError) items ->
  join_with ToString items = Throw e -> e = ConversionTypeError.
Proof.
  induction 1 as [| x rest Hx Hrest IH]; [discriminate |].
  cbn [join_with].
  destruct (match x with
            | VUndefined | VNull => Return []
            | _ => ToString x
            end) as [piece | e'] eqn:Hpiece.
  - destruct rest as [| y rest']; [discriminate |].
    destruct (join_with ToString (y :: rest')) as [tail | e'']; [discriminate |].
    intros H. injection H as <-. now apply IH.
  - intros H. injection H as <-.
    destruct x; try discriminate; now apply Hx.
Qed.

(** The one exception a conversion to a string throws. *)
Lemma ToString_throws (v : value) (e : exn) :
  ToString v = Throw e -> e = ConversionTypeError.
Proof.
  revert v e. fix IH 1.
  intros [ | | [|] | n | s | items | properties] e; try discriminate.
  - cbn [ToString]. apply join_with_throws.
    induction items as [| x rest IHrest]; constructor; [apply IH | exact IHrest].
  - cbn [ToString]. destruct (has_property properties (lit "toString"));
      [intros H; now injection H | discriminate].
Qed.

Lemma sent_entries_throws (parameters : object) (e : exn) :
  sent_entries parameters = Throw e -> e = ConversionTypeError.
Proof.
  induction parameters as [| [key v] rest IH]; [discriminate |].
  cbn [sent_entries].
  destruct (ToString v) as [s | e'] eqn:Hv.
  - destruct (sent_entries rest) as [entries | e'']; [discriminate |].
    intros H. injection H as <-. now apply IH.
  - intros H. injection H as <-. exact (ToString_throws v e' Hv).
Qed.

(** ** The requests a call sends *)

Lemma getAll_apikey_entries (key : jsstring) (parameters : object) :
  FormData_getAll
    ((lit "apikey", key)
     :: map (fun entry => (to_usv (fst entry), sent_text (snd entry))) parameters)
    (lit "apikey")
  = key :: map (fun entry => sent_text (snd entry))
             (filter (fun entry => jsstring_eqb (to_usv (fst entry)) (lit "apikey"))
                parameters).
Proof.
  unfold FormData_getAll.
  change (to_usv (lit "apikey")) with (lit "apikey").
  cbn [filter fst]. change (jsstring_eqb (lit "apikey") (lit "apikey")) with true.
  cbn [map snd]. f_equal.
  induction parameters as [| [k v] rest IH]; [reflexivity |].
  cbn [map filter fst snd].
  destruct (jsstring_eqb (to_usv k) (lit "apikey")); cbn [map snd]; now rewrite IH.
Qed.

Lemma fetch_failed_is_no_api_message (text : jsstring) (code : N) :
  lit "Fetch failed!" <> api_error_message text code.
Proof.
  intros H. apply (f_equal (@hd_error N)) in H.
  vm_compute in H. discriminate.
Qed.

Lemma api_failure_is_not_fetch_failed (text : jsstring) (code : N) (cause : option exn) :
  Throw (A := value) (new_Error (api_error_message text code) None)
  <> Throw (ErrorObject (lit "Error") (lit "Fetch failed!") cause).
Proof.
  intros H.
  apply (f_equal (fun outcome : result value =>
                    match outcome with
                    | Throw (ErrorObject _ message _) => message
                    | _ => []
                    end)) in H.
  exact (fetch_failed_is_no_api_message text code (eq_sym H)).
Qed.

(** ** C1 *)

Lemma unparseable_error_body_hides_status :
  fst (invoke (Call_get_databases (Some false)) (sample_state (Resolved (unparseable 404))))
  = Throw syntax_error
  /\ fst (invoke (Call_get_databases (Some false)) (sample_state (Resolved (unparseable 500))))
     = Throw syntax_error
  /\ ~ failure_surfaces_status.
Proof.
  split; [reflexivity | split; [reflexivity |]].
  intros [status_of H].
  destruct (H (Call_get_databases (Some false))
              (sample_state (Resolved (unparseable 404))) (unparseable 404))
    as [e1 [H1 S1]]; [eexists; split; reflexivity | reflexivity |].
  destruct (H (Call_get_databases (Some false))
              (sample_state (Resolved (unparseable 500))) (unparseable 500))
    as [e2 [H2 S2]]; [eexists; split; reflexivity | reflexivity |].
  vm_compute in H1, H2.
  injection H1 as <-. injection H2 as <-.
  rewrite S1 in S2. discriminate.
Qed.

(** C1 (amended).  Every call whose input reaches the network sends one
    request, and when the network answers that request with a response of
    non-2xx status: if the body parses to a JSON object whose [error] is a
    string, the call fails with an [Error] whose message is
    [DBHub API error message: <error> [HTTP status: <status>]], the server's
    message and the status both in it; if the body does not parse, the call
    fails with the parse failure itself, whatever the status. *)
Theorem api_rejection_reported (c : call) (st : State) :
  reaches_network c = true ->
  exists req,
    requests_of (invoke c) st = [req]
    /\ forall r,
         net (world st) req = Resolved r ->
         ok r = false ->
         (forall properties message,
             json_result r = Return (VObj properties) ->
             get_property properties (lit "error") = VStr message ->
             fst (invoke c st)
             = Throw (ErrorObject (lit "Error")
                        (lit "DBHub API error message: " ++ message
                         ++ lit " [HTTP status: " ++ integer_to_string (status r)
                         ++ lit "]")
                        None))
         /\ (forall e, json_result r = Throw e -> fst (invoke c st) = Throw e).
Proof.
  intros Hreach. destruct (invoke_reaching c st Hreach) as [req [Hsent Hrun]].
  exists req. split; [exact Hsent |].
  intros r Hnet Hok. rewrite Hrun, Hnet. cbn [fst outcome_of_answer]. rewrite Hok.
  split.
  - intros properties message Hjson Herror. rewrite Hjson, Herror. reflexivity.
  - intros e Hjson. rewrite Hjson. reflexivity.
Qed.

Lemma api_rejection_reported_witness :
  exists req,
    requests_of (invoke (Call_get_columns (lit "owner") (lit "db") (lit "t")))
      (sample_state (Resolved table_not_found))
    = [req]
    /\ fst (invoke (Call_get_columns (lit "owner") (lit "db") (lit "t"))
              (sample_state (Resolved table_not_found)))
       = Throw (ErrorObject (lit "Error")
                  (lit "DBHub API error message: table not found [HTTP status: 404]")
                  None).
Proof.
  destruct (api_rejection_reported
              (Call_get_columns (lit "owner") (lit "db") (lit "t"))
              (sample_state (Resolved table_not_found)) eq_refl)
    as [req [Hsent Hanswer]].
  exists req. split; [exact Hsent |].
  exact (proj1 (Hanswer table_not_found eq_refl eq_refl)
           [ (lit "error", VStr (lit "table not found")) ] (lit "table not found")
           eq_refl eq_refl).
Defined.

(** ** C2 *)

Lemma caller_apikey_is_sent_too :
  requests_of
    (invoke (Call_make_request (lit "https://api.dbhub.io/v1/databases")
               [ (lit "apikey", VStr (lit "forged")); (lit "live", VBool false) ]))
    (sample_state (Resolved empty_list_response))
  = [ mkRequest (lit "https://api.dbhub.io/v1/databases") (lit "POST")
        [ (lit "apikey", lit "secret"); (lit "apikey", lit "forged");
          (lit "live", lit "false") ] ]
  /\ ~ only_configured_apikey_sent
         (Call_make_request (lit "https://api.dbhub.io/v1/databases")
            [ (lit "apikey", VStr (lit "forged")); (lit "live", VBool false) ])
         (sample_state (Resolved empty_list_response)).
Proof.
  split; [reflexivity |].
  intros H. specialize (H _ (or_introl eq_refl)).
  vm_compute in H. discriminate.
Qed.

(** C2 (amended).  Every call whose input reaches the network sends one
    request, and the first [apikey] field of its body, the one a first-match
    lookup finds, is the configured key as a USVString: the key itself when
    it is well formed, and the key with each unpaired surrogate replaced by
    U+FFFD otherwise.  For the seven operations of the catalog it is the
    only [apikey] field.  When the dispatcher is called with a mapping of the
    caller's own, an [apikey] entry of that mapping is appended after it and
    sent as well. *)
Theorem configured_apikey_sent_first (c : call) (st : State) :
  reaches_network c = true ->
  exists req,
    requests_of (invoke c) st = [req]
    /\ FormData_get (req_body req) (lit "apikey") = Some (to_usv (api_key (this st)))
    /\ FormData_getAll (req_body req) (lit "apikey")
       = to_usv (api_key (this st))
         :: match c with
            | Call_make_request _ parameters =>
                map (fun entry => sent_text (snd entry))
                  (filter (fun entry => jsstring_eqb (to_usv (fst entry)) (lit "apikey"))
                     parameters)
            | _ => []
            end
    /\ (well_formed (api_key (this st)) = true ->
        to_usv (api_key (this st)) = api_key (this st)).
Proof.
  intros Hreach. rewrite requests_of_invoke. unfold request_of.
  enough (H : exists req,
             match
               match shape_of (this st) c with
               | Return (url, parameters) =>
                   match sent_entries parameters with
                   | Return entries =>
                       Return (mkRequest url (lit "POST")
                                 ((lit "apikey", to_usv (api_key (this st))) :: entries))
                   | Throw e => Throw e
                   end
               | Throw e => Throw e
               end
             with
             | Return req => [req]
             | Throw _ => []
             end = [req]
             /\ FormData_getAll (req_body req) (lit "apikey")
                = to_usv (api_key (this st))
                  :: match c with
                     | Call_make_request _ parameters =>
                         map (fun entry => sent_text (snd entry))
                           (filter
                              (fun entry => jsstring_eqb (to_usv (fst entry)) (lit "apikey"))
                              parameters)
                     | _ => []
                     end).
  { destruct H as [req [Hsent Hall]]. exists req.
    split; [exact Hsent | split; [| split; [exact Hall |]]].
    - unfold FormData_get. rewrite Hall. reflexivity.
    - apply to_usv_well_formed. }
  destruct c; cbn [shape_of reaches_network] in Hreach |- *.
  - rewrite (sent_entries_printable parameters Hreach).
    eexists. split; [reflexivity |]. apply getAll_apikey_entries.
  - eexists. split; reflexivity.
  - eexists. split; reflexivity.
  - eexists. split; reflexivity.
  - destruct live as [[|] |]; eexists; split; reflexivity.
  - eexists. split; reflexivity.
  - unfold btoa. rewrite Hreach. eexists. split; reflexivity.
  - unfold btoa. rewrite Hreach. eexists. split; reflexivity.
Qed.

Lemma configured_apikey_sent_first_witness :
  exists req,
    requests_of
      (invoke (Call_make_request (lit "https://api.dbhub.io/v1/databases")
                 [ (lit "apikey", VStr (lit "forged")); (lit "live", VBool false) ]))
      (mkState (mkDBHub (lit "https://api.dbhub.io") get_endpoints [ 0x73; 0xD800 ])
         (network_answering (Resolved empty_list_response)))
    = [req]
    /\ FormData_get (req_body req) (lit "apikey") = Some [ 0x73; 0xFFFD ]
    /\ FormData_getAll (req_body req) (lit "apikey") = [ [ 0x73; 0xFFFD ]; lit "forged" ].
Proof.
  destruct (configured_apikey_sent_first
              (Call_make_request (lit "https://api.dbhub.io/v1/databases")
                 [ (lit "apikey", VStr (lit "forged")); (lit "live", VBool false) ])
              (mkState (mkDBHub (lit "https://api.dbhub.io") get_endpoints [ 0x73; 0xD800 ])
                 (network_answering (Resolved empty_list_response)))
              eq_refl)
    as [req [Hsent [Hget [Hall _]]]].
  exists req. split; [exact Hsent | split; [exact Hget | exact Hall]].
Defined.

(** ** C3 *)

(** The second argument of [new Error] is read as an options object, so the
    error built for a rejected request gets the rejection's own [cause], if
    it has one, and not the rejection. *)
Lemma fetch_failed_cause (error : exn) :
  new_Error (lit "Fetch failed!") (Some error)
  = ErrorObject (lit "Error") (lit "Fetch failed!") (exn_cause error).
Proof. reflexivity. Qed.

Lemma transport_and_api_errors_share_kind :
  fst (invoke (Call_get_databases None) (sample_state (Rejected connection_refused)))
  = Throw (ErrorObject (lit "Error") (lit "Fetch failed!") None)
  /\ fst (invoke (Call_get_databases None) (sample_state (Resolved table_not_found)))
     = Throw (ErrorObject (lit "Error")
                (lit "DBHub API error message: table not found [HTTP status: 404]") None)
  /\ ~ transport_error_has_own_kind_and_cause.
Proof.
  split; [reflexivity | split; [reflexivity |]].
  intros H.
  destruct (H (Call_get_databases None) (sample_state (Rejected connection_refused))
              connection_refused
              (ErrorObject (lit "Error") (lit "Fetch failed!") None)
              (Call_get_databases None) (sample_state (Resolved table_not_found))
              table_not_found
              (ErrorObject (lit "Error")
                 (lit "DBHub API error message: table not found [HTTP status: 404]") None))
    as [Hname _]; try reflexivity; try (eexists; split; reflexivity).
  apply Hname. reflexivity.
Qed.

(** C3 (amended).  Two calls whose inputs reach the network each send one
    request.  When the network rejects the request of the first, that call
    fails with an [Error] whose message is [Fetch failed!].  When the network
    answers the request of the second with a non-2xx response whose body
    parses, that call fails too, with an [Error] of the same kind or a
    TypeError, but never with the same failure: the message of its [Error]
    starts differently, so a caller tells the two apart by the message. *)
Theorem transport_failure_reported (c c' : call) (st st' : State) :
  reaches_network c = true ->
  reaches_network c' = true ->
  exists req req',
    requests_of (invoke c) st = [req]
    /\ requests_of (invoke c') st' = [req']
    /\ forall error,
         net (world st) req = Rejected error ->
         (exists cause,
             fst (invoke c st)
             = Throw (ErrorObject (lit "Error") (lit "Fetch failed!") cause))
         /\ (forall r v,
                net (world st') req' = Resolved r ->
                ok r = false ->
                json_result r = Return v ->
                exists e, fst (invoke c' st') = Throw e
                          /\ fst (invoke c' st') <> fst (invoke c st)).
Proof.
  intros Hreach Hreach'.
  destruct (invoke_reaching c st Hreach) as [req [Hsent Hrun]].
  destruct (invoke_reaching c' st' Hreach') as [req' [Hsent' Hrun']].
  exists req, req'. split; [exact Hsent | split; [exact Hsent' |]].
  intros error Hnet. rewrite Hrun, Hnet. cbn [fst outcome_of_answer].
  split; [eexists; reflexivity |].
  intros r v Hnet' Hok Hjson. rewrite Hrun', Hnet'. cbn [fst outcome_of_answer].
  rewrite Hok, Hjson.
  destruct v as [ | | b | n | s | items | properties];
    try (eexists; split; [reflexivity | discriminate]);
    try (eexists; split;
         [reflexivity | exact (api_failure_is_not_fetch_failed _ _ (exn_cause error))]).
  destruct (ToString (get_property properties (lit "error"))) as [text | e] eqn:Htext.
  - eexists; split;
      [reflexivity | exact (api_failure_is_not_fetch_failed _ _ (exn_cause error))].
  - eexists; split; [reflexivity |].
    rewrite (ToString_throws _ e Htext). discriminate.
Qed.

Lemma transport_failure_reported_witness :
  (exists cause,
      fst (invoke (Call_get_branches (lit "owner") (lit "db"))
             (sample_state (Rejected connection_refused)))
      = Throw (ErrorObject (lit "Error") (lit "Fetch failed!") cause))
  /\ fst (invoke (Call_get_commits (lit "owner") (lit "db"))
            (sample_state (Resolved table_not_found)))
     <> fst (invoke (Call_get_branches (lit "owner") (lit "db"))
               (sample_state (Rejected connection_refused))).
Proof.
  destruct (transport_failure_reported
              (Call_get_branches (lit "owner") (lit "db"))
              (Call_get_commits (lit "owner") (lit "db"))
              (sample_state (Rejected connection_refused))
              (sample_state (Resolved table_not_found))
              eq_refl eq_refl)
    as [req [req' [_ [_ Hanswer]]]].
  destruct (Hanswer connection_refused eq_refl) as [Hthrown Hdistinct].
  split; [exact Hthrown |].
  destruct (Hdistinct table_not_found _ eq_refl eq_refl eq_refl) as [e [_ Hne]].
  exact Hne.
Defined.

(** ** C4 *)

(** C4.  For an SQL text that [btoa] accepts, [query] and [execute] each
    send one request whose body has one [sql] field, the base64 of the
    text: the text always goes through the encoder, and what comes out
    differs from the text itself whenever the text is not empty.  For a text
    that [btoa] rejects, neither sends a request, so no request ever carries
    anything else as [sql]. *)
Theorem sql_sent_base64 (dbowner dbname sql : jsstring) (st : State) :
  (forallb is_latin1 sql = true ->
   exists q e,
     requests_of (query dbowner dbname sql) st = [q]
     /\ requests_of (execute dbowner dbname sql) st = [e]
     /\ FormData_getAll (req_body q) (lit "sql") = [base64_encode sql]
     /\ FormData_getAll (req_body e) (lit "sql") = [base64_encode sql]
     /\ (base64_encode sql = sql <-> sql = []))
  /\ (forallb is_latin1 sql = false ->
      requests_of (query dbowner dbname sql) st = []
      /\ requests_of (execute dbowner dbname sql) st = []).
Proof.
  change (query dbowner dbname sql) with (invoke (Call_query dbowner dbname sql)).
  change (execute dbowner dbname sql) with (invoke (Call_execute dbowner dbname sql)).
  rewrite !requests_of_invoke. unfold request_of, shape_of, btoa.
  split; intros Hl; rewrite Hl; cbn [sent_entries ToString].
  - rewrite to_usv_base64_encode.
    eexists. eexists.
    split; [reflexivity | split; [reflexivity |]].
    split; [reflexivity | split; [reflexivity | apply base64_encode_fixpoint]].
  - split; reflexivity.
Qed.

Lemma sql_sent_base64_witness :
  exists q e,
    requests_of (query (lit "owner") (lit "db") (lit "SELECT 1"))
      (sample_state (Resolved empty_list_response)) = [q]
    /\ requests_of (execute (lit "owner") (lit "db") (lit "SELECT 1"))
         (sample_state (Resolved empty_list_response)) = [e]
    /\ FormData_getAll (req_body q) (lit "sql") = [ lit "U0VMRUNUIDE=" ]
    /\ FormData_getAll (req_body e) (lit "sql") = [ lit "U0VMRUNUIDE=" ].
Proof.
  destruct (proj1 (sql_sent_base64 (lit "owner") (lit "db") (lit "SELECT 1")
                     (sample_state (Resolved empty_list_response))) eq_refl)
    as [q [e [Hq [He [Hfq [Hfe _]]]]]].
  exists q, e. repeat split; assumption.
Defined.

(** ** C5 *)

(** C5.  Constructing a client with an absent or empty API key throws the
    error [Missing required API key!] and yields no object; with any other
    string it yields an object with the fixed base URL, the table of the
    seven endpoints and that key.  Either way the network is left as it was:
    nothing is sent. *)
Theorem constructor_requires_api_key (api_key : option jsstring) (w : World) :
  (api_key = None \/ api_key = Some [] ->
   constructor api_key w
   = (Throw (ErrorObject (lit "Error") (lit "Missing required API key!") None), w))
  /\ (forall key,
         api_key = Some key -> key <> [] ->
         constructor api_key w
         = (Return
              (mkDBHub (lit "https://api.dbhub.io")
                 [ (lit "branches", lit "/v1/branches");
                   (lit "columns", lit "/v1/columns");
                   (lit "commits", lit "/v1/commits");
                   (lit "databases", lit "/v1/databases");
                   (lit "delete", lit "/v1/delete");
                   (lit "execute", lit "/v1/execute");
                   (lit "query", lit "/v1/query") ]
                 key),
            w)).
Proof.
  split.
  - intros [-> | ->]; reflexivity.
  - intros key -> Hkey. destruct key as [| c key]; [contradiction | reflexivity].
Qed.

Lemma constructor_requires_api_key_witness :
  constructor (Some []) (network_answering (Rejected connection_refused))
  = (Throw (ErrorObject (lit "Error") (lit "Missing required API key!") None),
     network_answering (Rejected connection_refused))
  /\ constructor (Some (lit "secret")) (network_answering (Rejected connection_refused))
     = (Return
          (mkDBHub (lit "https://api.dbhub.io")
             [ (lit "branches", lit "/v1/branches");
               (lit "columns", lit "/v1/columns");
               (lit "commits", lit "/v1/commits");
               (lit "databases", lit "/v1/databases");
               (lit "delete", lit "/v1/delete");
               (lit "execute", lit "/v1/execute");
               (lit "query", lit "/v1/query") ]
             (lit "secret")),
        network_answering (Rejected connection_refused)).
Proof.
  split.
  - exact (proj1 (constructor_requires_api_key (Some []) _) (or_intror eq_refl)).
  - refine (proj2 (constructor_requires_api_key (Some (lit "secret")) _)
              (lit "secret") eq_refl _).
    discriminate.
Defined.

(** ** C6 *)

(** C6.  Every call whose input reaches the network sends one request, and
    when the network answers that request with a response of 2xx status, the
    call returns what the body parses to, as it is. *)
Theorem success_body_returned (c : call) (st : State) :
  reaches_network c = true ->
  exists req,
    requests_of (invoke c) st = [req]
    /\ forall r v,
         net (world st) req = Resolved r ->
         ok r = true ->
         json_result r = Return v ->
         fst (invoke c st) = Return v.
Proof.
  intros Hreach. destruct (invoke_reaching c st Hreach) as [req [Hsent Hrun]].
  exists req. split; [exact Hsent |].
  intros r v Hnet Hok Hjson. rewrite Hrun, Hnet. cbn [fst outcome_of_answer].
  now rewrite Hok.
Qed.

Lemma success_body_returned_witness :
  fst (invoke (Call_get_databases (Some false)) (sample_state (Resolved empty_list_response)))
  = Return (VArr []).
Proof.
  destruct (success_body_returned (Call_get_databases (Some false))
              (sample_state (Resolved empty_list_response)) eq_refl)
    as [req [_ Hanswer]].
  exact (Hanswer empty_list_response (VArr []) eq_refl eq_refl eq_refl).
Defined.

(** ** C7 *)

(** C7.  The endpoint table is the table of the version constant 1 over its
    operation names, in both revisions of the source, and every client gets
    that same table.  Every entry of the earlier table is an entry of the
    later one, name and path unchanged; the later table has three entries
    more: branches, commits and delete. *)
Theorem endpoints_append_only :
  get_endpoints
  = versioned_paths 1
      [ "branches"; "columns"; "commits"; "databases"; "delete"; "execute"; "query" ]%string
  /\ get_endpoints_earlier
     = versioned_paths 1 [ "databases"; "columns"; "query"; "execute" ]%string
  /\ Forall (fun entry => In entry get_endpoints
                          /\ lookup get_endpoints (fst entry) = Some (snd entry))
       get_endpoints_earlier
  /\ filter (fun entry => negb (has_property get_endpoints_earlier (fst entry))) get_endpoints
     = versioned_paths 1 [ "branches"; "commits"; "delete" ]%string
  /\ (forall api_key w,
         match fst (constructor api_key w) with
         | Return client => endpoints client = get_endpoints
         | Throw _ => falsy api_key = true
         end).
Proof.
  split; [reflexivity | split; [reflexivity | split; [| split; [reflexivity |]]]].
  - repeat constructor; simpl; tauto.
  - intros api_key w. unfold constructor.
    destruct (falsy api_key); reflexivity.
Qed.

(** ** C8 *)

(** C8.  [delete_database(dbname)] calls the dispatcher with a mapping of
    one entry, [dbname], and sends one request whose body has the key and
    that entry, each as a USVString, and nothing else: no owner. *)
Theorem delete_database_sends_dbname_only (dbname : jsstring) (st : State) :
  delete_database dbname st
  = make_request (endpoint_url (this st) "delete") [ (lit "dbname", VStr dbname) ] st
  /\ requests_of (delete_database dbname) st
     = [ mkRequest (endpoint_url (this st) "delete") (lit "POST")
           [ (lit "apikey", to_usv (api_key (this st))); (lit "dbname", to_usv dbname) ] ]
  /\ FormData_get
       [ (lit "apikey", to_usv (api_key (this st))); (lit "dbname", to_usv dbname) ]
       (lit "dbowner")
     = None.
Proof.
  split; [exact (invoke_run (Call_delete_database dbname) st) |].
  split; [exact (requests_of_invoke (Call_delete_database dbname) st) | reflexivity].
Qed.

(** ** C9 *)

(** C9.  Every call, of an operation of the catalog or of the dispatcher,
    leaves the object as it was: base URL, API key and endpoint table are
    the same after the call, whether it returned or threw. *)
Theorem configuration_unchanged (c : call) (st : State) :
  this (snd (invoke c st)) = this st
  /\ base_url (this (snd (invoke c st))) = base_url (this st)
  /\ api_key (this (snd (invoke c st))) = api_key (this st)
  /\ endpoints (this (snd (invoke c st))) = endpoints (this st).
Proof.
  assert (H : this (snd (invoke c st)) = this st).
  { rewrite invoke_request.
    destruct (request_of (this st) c) as [req | e]; reflexivity. }
  rewrite H. repeat split.
Qed.

(** ** C10 *)

(** C10.  For an SQL text whose code points are all at most U+00FF, [btoa]
    gives its base64 and [query] and [execute] each send one request, with
    that encoding.  For a text with a code point above U+00FF, [btoa]
    throws, and [query] and [execute] fail with that exception in the state
    they started in: no request is sent. *)
Theorem base64_step_is_partial (dbowner dbname sql : jsstring) (st : State) :
  (Forall (fun cp => cp <= 0xFF) (code_points sql) ->
   btoa sql = Return (base64_encode sql)
   /\ requests_of (query dbowner dbname sql) st
      = [ mkRequest (endpoint_url (this st) "query") (lit "POST")
            [ (lit "apikey", to_usv (api_key (this st)));
              (lit "dbowner", to_usv dbowner); (lit "dbname", to_usv dbname);
              (lit "sql", base64_encode sql) ] ]
   /\ requests_of (execute dbowner dbname sql) st
      = [ mkRequest (endpoint_url (this st) "execute") (lit "POST")
            [ (lit "apikey", to_usv (api_key (this st)));
              (lit "dbowner", to_usv dbowner); (lit "dbname", to_usv dbname);
              (lit "sql", base64_encode sql) ] ]
   /\ requests_of (query dbowner dbname sql) st
      = requests_of
          (make_request (endpoint_url (this st) "query")
             [ (lit "dbowner", VStr dbowner); (lit "dbname", VStr dbname);
               (lit "sql", VStr (base64_encode sql)) ]) st
   /\ requests_of (execute dbowner dbname sql) st
      = requests_of
          (make_request (endpoint_url (this st) "execute")
             [ (lit "dbowner", VStr dbowner); (lit "dbname", VStr dbname);
               (lit "sql", VStr (base64_encode sql)) ]) st)
  /\ (Exists (fun cp => 0xFF < cp) (code_points sql) ->
      btoa sql = Throw InvalidCharacterError
      /\ query dbowner dbname sql st = (Throw InvalidCharacterError, st)
      /\ requests_of (query dbowner dbname sql) st = []
      /\ execute dbowner dbname sql st = (Throw InvalidCharacterError, st)
      /\ requests_of (execute dbowner dbname sql) st = []).
Proof.
  pose proof (requests_of_invoke (Call_query dbowner dbname sql) st) as Hq.
  pose proof (requests_of_invoke (Call_execute dbowner dbname sql) st) as He.
  pose proof (invoke_run (Call_query dbowner dbname sql) st) as Rq.
  pose proof (invoke_run (Call_execute dbowner dbname sql) st) as Re.
  unfold request_of in Hq, He. cbn [invoke shape_of] in Hq, He, Rq, Re.
  split; intros Hcp.
  - apply all_code_points_latin1 in Hcp.
    assert (Hb : btoa sql = Return (base64_encode sql)) by (unfold btoa; now rewrite Hcp).
    rewrite Hb in Hq, He, Rq, Re. cbn [sent_entries ToString] in Hq, He.
    rewrite to_usv_base64_encode in Hq, He.
    split; [exact Hb | split; [exact Hq | split; [exact He | split]]].
    + unfold requests_of. now rewrite Rq.
    + unfold requests_of. now rewrite Re.
  - apply some_code_point_beyond_latin1 in Hcp.
    assert (Hb : btoa sql = Throw InvalidCharacterError) by (unfold btoa; now rewrite Hcp).
    rewrite Hb in Hq, He, Rq, Re. auto 6.
Qed.

Lemma base64_step_is_partial_witness :
  requests_of (query (lit "owner") (lit "db") [83; 233]) (sample_state (Rejected connection_refused))
  = [ mkRequest (lit "https://api.dbhub.io/v1/query") (lit "POST")
        [ (lit "apikey", lit "secret"); (lit "dbowner", lit "owner");
          (lit "dbname", lit "db"); (lit "sql", lit "U+k=") ] ]
  /\ requests_of (execute (lit "owner") (lit "db") [83; 0x20AC])
       (sample_state (Rejected connection_refused)) = []
  /\ requests_of (query (lit "owner") (lit "db") [0xD83D; 0xDE00])
       (sample_state (Rejected connection_refused)) = [].
Proof.
  split; [| split].
  - refine (proj1 (proj2 (proj1 (base64_step_is_partial (lit "owner") (lit "db") [83; 233]
                                   (sample_state (Rejected connection_refused))) _))).
    repeat constructor; vm_compute; discriminate.
  - refine (proj2 (proj2 (proj2 (proj2 (proj2 (base64_step_is_partial
             (lit "owner") (lit "db") [83; 0x20AC]
             (sample_state (Rejected connection_refused))) _))))).
    apply Exists_cons_tl, Exists_cons_hd. vm_compute. reflexivity.
  - refine (proj1 (proj2 (proj2 (proj2 (base64_step_is_partial
             (lit "owner") (lit "db") [0xD83D; 0xDE00]
             (sample_state (Rejected connection_refused))) _)))).
    apply Exists_cons_hd. vm_compute. reflexivity.
Defined.

(** * Further properties of the code *)

(** ** Requests *)

Lemma requests_are_logged (c : call) (st : State) :
  sent (world (snd (invoke c st))) = sent (world st) ++ requests_of (invoke c) st.
Proof.
  rewrite requests_of_invoke, invoke_request.
  destruct (request_of (this st) c) as [req | e].
  - reflexivity.
  - simpl. now rewrite app_nil_r.
Qed.

Lemma request_of_stopped (this : DBHub) (c : call) :
  reaches_network c = false ->
  request_of this c
  = Throw (match sql_of c with
           | Some _ => InvalidCharacterError
           | None => ConversionTypeError
           end).
Proof.
  unfold request_of.
  destruct c; cbn [reaches_network shape_of sql_of]; intros H; try discriminate.
  - destruct (sent_entries_unprintable parameters H) as [e He].
    rewrite He. now rewrite (sent_entries_throws parameters e He).
  - unfold btoa. now rewrite H.
  - unfold btoa. now rewrite H.
Qed.

(** X1.  A call whose input reaches the network sends one request, whatever
    the network answers: there is no second attempt after a rejection or a
    non-2xx response.  A call whose input does not sends none and fails in
    the state it started in: [execute] or [query] with an SQL text that has
    a code unit above U+00FF, with the exception of [btoa], and the
    dispatcher with a parameter that has no string form, with a TypeError.
    The log of sent requests only grows, by the requests of the call. *)
Theorem one_request_per_call (c : call) (st : State) :
  sent (world (snd (invoke c st))) = sent (world st) ++ requests_of (invoke c) st
  /\ if reaches_network c
     then exists req, requests_of (invoke c) st = [req]
     else requests_of (invoke c) st = []
          /\ invoke c st
             = (Throw (match sql_of c with
                       | Some _ => InvalidCharacterError
                       | None => ConversionTypeError
                       end), st).
Proof.
  split; [apply requests_are_logged |].
  destruct (reaches_network c) eqn:Hreach.
  - destruct (invoke_reaching c st Hreach) as [req [Hsent _]]. eauto.
  - rewrite requests_of_invoke, invoke_request, (request_of_stopped (this st) c Hreach).
    split; reflexivity.
Qed.

(** X2.  On a client the constructor built, every operation of the catalog
    posts to the fixed root followed by [/v1/] and the name of its
    endpoint, with method POST. *)
Theorem operations_post_to_versioned_urls
    (key : option jsstring) (w w' : World) (client : DBHub)
    (c : call) (name : string) (st : State) (req : Request) :
  constructor key w = (Return client, w') ->
  this st = client ->
  endpoint_name c = Some name ->
  In req (requests_of (invoke c) st) ->
  req_url req = lit "https://api.dbhub.io/v1/" ++ lit name
  /\ req_method req = lit "POST".
Proof.
  unfold constructor. destruct (falsy key); [discriminate |].
  intros Hc Hthis Hname Hin. injection Hc as <- _.
  rewrite requests_of_invoke, Hthis in Hin. unfold request_of in Hin.
  destruct c; cbn [endpoint_name] in Hname; try discriminate; injection Hname as <-;
    cbn [shape_of] in Hin;
    try (destruct (btoa sql) as [encoded | e]);
    try (destruct live as [[|] |]);
    cbn [sent_entries ToString] in Hin;
    try contradiction;
    destruct Hin as [<- | []]; split; reflexivity.
Qed.

Lemma operations_post_to_versioned_urls_witness :
  req_url (mkRequest (lit "https://api.dbhub.io/v1/delete") (lit "POST")
             [ (lit "apikey", lit "secret"); (lit "dbname", lit "db") ])
  = lit "https://api.dbhub.io/v1/" ++ lit "delete"
  /\ req_method (mkRequest (lit "https://api.dbhub.io/v1/delete") (lit "POST")
                   [ (lit "apikey", lit "secret"); (lit "dbname", lit "db") ])
     = lit "POST".
Proof.
  exact (operations_post_to_versioned_urls
           (Some (lit "secret")) (network_answering (Rejected connection_refused))
           (network_answering (Rejected connection_refused)) sample_client
           (Call_delete_database (lit "db")) "delete"
           (sample_state (Rejected connection_refused))
           (mkRequest (lit "https://api.dbhub.io/v1/delete") (lit "POST")
              [ (lit "apikey", lit "secret"); (lit "dbname", lit "db") ])
           eq_refl eq_refl eq_refl (or_introl eq_refl)).
Defined.

(** ** The form body *)

(** X3.  When every value of the parameter mapping has a string form, the
    dispatcher sends one request whose body is the key followed by the
    entries of the mapping in their order, each name and each value's
    string form as a USVString.  Looking up a name other than [apikey]
    gives the values of the entries of that name. *)
Theorem parameters_sent_as_strings
    (url : jsstring) (parameters : object) (st : State) (name : jsstring) :
  forallb (fun entry => printable (snd entry)) parameters = true ->
  jsstring_eqb (lit "apikey") (to_usv name) = false ->
  exists req,
    requests_of (make_request url parameters) st = [req]
    /\ req_body req
       = (lit "apikey", to_usv (api_key (this st)))
         :: map (fun entry => (to_usv (fst entry), sent_text (snd entry))) parameters
    /\ FormData_getAll (req_body req) name
       = map (fun entry => sent_text (snd entry))
           (filter (fun entry => jsstring_eqb (to_usv (fst entry)) (to_usv name))
              parameters).
Proof.
  intros Hprint Hname.
  change (make_request url parameters)
    with (invoke (Call_make_request url parameters)).
  rewrite requests_of_invoke. unfold request_of. cbn [shape_of].
  rewrite (sent_entries_printable parameters Hprint).
  eexists. split; [reflexivity | split; [reflexivity |]].
  unfold FormData_getAll. cbn [req_body filter fst]. rewrite Hname.
  induction parameters as [| [k v] rest IH]; [reflexivity |].
  cbn [forallb snd] in Hprint. apply andb_true_iff in Hprint.
  destruct Hprint as [_ Hrest].
  cbn [map filter fst snd].
  destruct (jsstring_eqb (to_usv k) (to_usv name)); cbn [map snd];
    now rewrite (IH Hrest).
Qed.

Lemma parameters_sent_as_strings_witness :
  exists req,
    requests_of
      (make_request (lit "https://api.dbhub.io/v1/databases")
         [ (lit "live", VBool true); (lit "tags", VArr [ VStr (lit "a"); VNull ]);
           ([ 0x66; 0xDC00 ], VObj [ (lit "owner", VStr (lit "me")) ]) ])
      (sample_state (Resolved empty_list_response))
    = [req]
    /\ req_body req
       = [ (lit "apikey", lit "secret"); (lit "live", lit "true");
           (lit "tags", lit "a,"); ([ 0x66; 0xFFFD ], lit "[object Object]") ]
    /\ FormData_getAll (req_body req) (lit "tags") = [ lit "a," ].
Proof.
  exact (parameters_sent_as_strings (lit "https://api.dbhub.io/v1/databases")
           [ (lit "live", VBool true); (lit "tags", VArr [ VStr (lit "a"); VNull ]);
             ([ 0x66; 0xDC00 ], VObj [ (lit "owner", VStr (lit "me")) ]) ]
           (sample_state (Resolved empty_list_response)) (lit "tags") eq_refl eq_refl).
Defined.

(** X4.  [get_databases] sends one field beside the key, [live], as the
    text [true] or [false]; called without an argument it runs as
    [get_databases(false)] does.  The key goes out as a USVString. *)
Theorem get_databases_sends_live_flag (live : option bool) (st : State) :
  get_databases None st = get_databases (Some false) st
  /\ requests_of (get_databases live) st
     = [ mkRequest (endpoint_url (this st) "databases") (lit "POST")
           [ (lit "apikey", to_usv (api_key (this st)));
             (lit "live",
              match live with
              | Some true => lit "true"
              | Some false | None => lit "false"
              end) ] ].
Proof.
  split; [reflexivity |].
  change (get_databases live) with (invoke (Call_get_databases live)).
  rewrite requests_of_invoke.
  destruct live as [[|] |]; reflexivity.
Qed.

(** ** Outcomes *)

(** X5.  A call returns a value only when the network answered its request
    with a response of 2xx status whose body parsed, and the value is then
    what the body parsed to: no failure is turned into a returned value. *)
Theorem value_only_from_success (c : call) (st : State) (v : value) :
  fst (invoke c st) = Return v ->
  exists r,
    answered c st (Resolved r) /\ ok r = true /\ json_result r = Return v.
Proof.
  unfold answered. rewrite requests_of_invoke, invoke_request.
  destruct (request_of (this st) c) as [req | e]; [| discriminate].
  cbn [fst]. unfold outcome_of_answer.
  destruct (net (world st) req) as [r | error] eqn:Hnet; [| discriminate].
  destruct (ok r) eqn:Hok.
  - intros Hjson. exists r. repeat split; eauto.
  - destruct (json_result r) as [[ | | b | n | s | items | properties] | e];
      try discriminate.
    destruct (ToString (get_property properties (lit "error"))); discriminate.
Qed.

Lemma value_only_from_success_witness :
  exists r,
    answered (Call_get_databases None) (sample_state (Resolved empty_list_response))
      (Resolved r)
    /\ ok r = true /\ json_result r = Return (VArr []).
Proof.
  exact (value_only_from_success (Call_get_databases None)
           (sample_state (Resolved empty_list_response)) (VArr []) eq_refl).
Defined.

(** X6.  Every call whose input reaches the network sends one request, and
    when the network answers it with a non-2xx response whose body parses to
    a value other than [null]: the client reads the body's [error] property,
    [undefined] when the body has none or is no object, and converts it to a
    string.  When that succeeds the call fails with an [Error] without a
    cause whose message is [DBHub API error message: <text>
    [HTTP status: <status>]]; when the property has no string form the call
    fails with the TypeError of the conversion, which carries no status. *)
Theorem api_error_message_of_any_body (c : call) (st : State) :
  reaches_network c = true ->
  exists req,
    requests_of (invoke c) st = [req]
    /\ forall r v,
         net (world st) req = Resolved r ->
         ok r = false ->
         json_result r = Return v ->
         v <> VNull -> v <> VUndefined ->
         match ToString (match v with
                         | VObj properties => get_property properties (lit "error")
                         | _ => VUndefined
                         end) with
         | Return text =>
             fst (invoke c st)
             = Throw (ErrorObject (lit "Error")
                        (lit "DBHub API error message: " ++ text
                         ++ lit " [HTTP status: " ++ integer_to_string (status r)
                         ++ lit "]")
                        None)
         | Throw _ => fst (invoke c st) = Throw ConversionTypeError
         end.
Proof.
  intros Hreach. destruct (invoke_reaching c st Hreach) as [req [Hsent Hrun]].
  exists req. split; [exact Hsent |].
  intros r v Hnet Hok Hjson Hnull Hundef.
  rewrite Hrun, Hnet. cbn [fst outcome_of_answer]. rewrite Hok, Hjson.
  destruct v as [ | | b | n | s | items | properties]; try congruence;
    try reflexivity.
  destruct (ToString (get_property properties (lit "error"))) as [text | e] eqn:Htext;
    [reflexivity |].
  now rewrite (ToString_throws _ e Htext).
Qed.

Lemma api_error_message_of_any_body_witness :
  fst (invoke (Call_get_commits (lit "owner") (lit "db"))
         (sample_state (Resolved (mkResponse 500 (Return (VArr [ VStr (lit "down") ]))))))
  = Throw (ErrorObject (lit "Error")
             (lit "DBHub API error message: undefined [HTTP status: 500]") None)
  /\ fst (invoke (Call_get_commits (lit "owner") (lit "db"))
            (sample_state
               (Resolved
                  (mkResponse 500
                     (Return (VObj [ (lit "error",
                                      VObj [ (lit "toString", VStr (lit "x")) ]) ]))))))
     = Throw ConversionTypeError.
Proof.
  split.
  - destruct (api_error_message_of_any_body (Call_get_commits (lit "owner") (lit "db"))
                (sample_state
                   (Resolved (mkResponse 500 (Return (VArr [ VStr (lit "down") ])))))
                eq_refl) as [req [_ Hanswer]].
    refine (Hanswer (mkResponse 500 (Return (VArr [ VStr (lit "down") ])))
              (VArr [ VStr (lit "down") ]) eq_refl eq_refl eq_refl _ _);
      discriminate.
  - destruct (api_error_message_of_any_body (Call_get_commits (lit "owner") (lit "db"))
                (sample_state
                   (Resolved
                      (mkResponse 500
                         (Return (VObj [ (lit "error",
                                          VObj [ (lit "toString", VStr (lit "x")) ]) ])))))
                eq_refl) as [req [_ Hanswer]].
    refine (Hanswer
              (mkResponse 500
                 (Return (VObj [ (lit "error",
                                  VObj [ (lit "toString", VStr (lit "x")) ]) ])))
              (VObj [ (lit "error", VObj [ (lit "toString", VStr (lit "x")) ]) ])
              eq_refl eq_refl eq_refl _ _);
      discriminate.
Defined.

(** X7.  Every call whose input reaches the network sends one request, and
    when the network answers it with a non-2xx response whose body is
    [null], reading [error] off the body throws: the call fails with a
    TypeError, the same for every status, and not with the client's own
    error. *)
Theorem null_error_body_throws_type_error (c : call) (st : State) :
  reaches_network c = true ->
  exists req,
    requests_of (invoke c) st = [req]
    /\ forall r,
         net (world st) req = Resolved r ->
         ok r = false ->
         json_result r = Return VNull ->
         fst (invoke c st) = Throw DestructureTypeError.
Proof.
  intros Hreach. destruct (invoke_reaching c st Hreach) as [req [Hsent Hrun]].
  exists req. split; [exact Hsent |].
  intros r Hnet Hok Hjson. rewrite Hrun, Hnet. cbn [fst outcome_of_answer].
  now rewrite Hok, Hjson.
Qed.

Lemma null_error_body_throws_type_error_witness :
  fst (invoke (Call_delete_database (lit "db"))
         (sample_state (Resolved (mkResponse 403 (Return VNull)))))
  = Throw DestructureTypeError.
Proof.
  destruct (null_error_body_throws_type_error (Call_delete_database (lit "db"))
              (sample_state (Resolved (mkResponse 403 (Return VNull)))) eq_refl)
    as [req [_ Hanswer]].
  exact (Hanswer (mkResponse 403 (Return VNull)) eq_refl eq_refl eq_refl).
Defined.

(** X8.  Every call whose input reaches the network sends one request, and
    when the network answers it with a 2xx response whose body does not
    parse, the call fails with the parse failure: a success status alone
    does not make the call return. *)
Theorem unparseable_success_body_throws (c : call) (st : State) :
  reaches_network c = true ->
  exists req,
    requests_of (invoke c) st = [req]
    /\ forall r e,
         net (world st) req = Resolved r ->
         ok r = true ->
         json_result r = Throw e ->
         fst (invoke c st) = Throw e.
Proof.
  intros Hreach. destruct (invoke_reaching c st Hreach) as [req [Hsent Hrun]].
  exists req. split; [exact Hsent |].
  intros r e Hnet Hok Hjson. rewrite Hrun, Hnet. cbn [fst outcome_of_answer].
  now rewrite Hok.
Qed.

Lemma unparseable_success_body_throws_witness :
  fst (invoke (Call_get_branches (lit "owner") (lit "db"))
         (sample_state (Resolved (unparseable 200))))
  = Throw syntax_error.
Proof.
  destruct (unparseable_success_body_throws (Call_get_branches (lit "owner") (lit "db"))
              (sample_state (Resolved (unparseable 200))) eq_refl)
    as [req [_ Hanswer]].
  exact (Hanswer (unparseable 200) syntax_error eq_refl eq_refl eq_refl).
Defined.

(** ** Calls in sequence, and the two revisions *)

Lemma invoke_keeps_object_and_net (c : call) (st : State) :
  this (snd (invoke c st)) = this st
  /\ net (world (snd (invoke c st))) = net (world st).
Proof.
  rewrite invoke_request.
  destruct (request_of (this st) c) as [req | e]; split; reflexivity.
Qed.

Lemma invoke_reads_object_and_net (c : call) (st st' : State) :
  this st = this st' ->
  net (world st) = net (world st') ->
  fst (invoke c st) = fst (invoke c st')
  /\ requests_of (invoke c) st = requests_of (invoke c) st'.
Proof.
  intros Hthis Hnet. rewrite !requests_of_invoke, !invoke_request, Hthis.
  destruct (request_of (this st') c) as [req | e]; [| split; reflexivity].
  cbn [fst]. now rewrite Hnet.
Qed.

(** X9.  The client keeps nothing from one call to the next: after any
    call, returned or failed, a second call builds the request it would
    have built alone and, the network answering that request as before,
    ends as it would have ended alone.  The log then holds the requests of
    the first call followed by those of the second. *)
Theorem calls_do_not_interfere (c1 c2 : call) (st : State) :
  requests_of (invoke c2) (snd (invoke c1 st)) = requests_of (invoke c2) st
  /\ fst (invoke c2 (snd (invoke c1 st))) = fst (invoke c2 st)
  /\ sent (world (snd (invoke c2 (snd (invoke c1 st)))))
     = sent (world st) ++ requests_of (invoke c1) st ++ requests_of (invoke c2) st.
Proof.
  destruct (invoke_keeps_object_and_net c1 st) as [Hthis Hnet].
  destruct (invoke_reads_object_and_net c2 (snd (invoke c1 st)) st Hthis Hnet)
    as [Hfst Hreq].
  split; [exact Hreq | split; [exact Hfst |]].
  rewrite requests_are_logged, Hreq, requests_are_logged.
  now rewrite app_assoc.
Qed.

Lemma invoke_earlier_is_invoke (c : call_earlier) :
  invoke_earlier c = invoke (later_call c).
Proof. destruct c; reflexivity. Qed.

(** X10.  The later revision changes nothing for a caller of the earlier
    one: for the same key, every call the earlier revision offers sends the
    same request and ends the same way on a client of either revision. *)
Theorem earlier_calls_behave_the_same
    (key : option jsstring) (w w1 w2 : World) (earlier later : DBHub)
    (c : call_earlier) (network : World) :
  constructor_earlier key w = (Return earlier, w1) ->
  constructor key w = (Return later, w2) ->
  requests_of (invoke_earlier c) (mkState earlier network)
  = requests_of (invoke (later_call c)) (mkState later network)
  /\ fst (invoke_earlier c (mkState earlier network))
     = fst (invoke (later_call c) (mkState later network))
  /\ world (snd (invoke_earlier c (mkState earlier network)))
     = world (snd (invoke (later_call c) (mkState later network))).
Proof.
  unfold constructor_earlier, constructor.
  destruct (falsy key); [discriminate |].
  intros He Hl. injection He as <- _. injection Hl as <- _.
  rewrite invoke_earlier_is_invoke, !requests_of_invoke, !invoke_request.
  cbn [this world].
  set (k := match key with Some k => k | None => [] end).
  assert (Hreq : request_of (mkDBHub (lit "https://api.dbhub.io") get_endpoints_earlier k)
                   (later_call c)
                 = request_of (mkDBHub (lit "https://api.dbhub.io") get_endpoints k)
                     (later_call c)).
  { unfold request_of.
    destruct c; cbn [later_call shape_of]; try reflexivity;
      destruct (btoa sql); reflexivity. }
  rewrite Hreq.
  destruct (request_of (mkDBHub (lit "https://api.dbhub.io") get_endpoints k)
              (later_call c)) as [req | e];
    repeat split; reflexivity.
Qed.

Lemma earlier_calls_behave_the_same_witness :
  requests_of (invoke_earlier (Earlier_query (lit "owner") (lit "db") (lit "SELECT 1")))
    (mkState (mkDBHub (lit "https://api.dbhub.io") get_endpoints_earlier (lit "secret"))
       (network_answering (Resolved empty_list_response)))
  = requests_of (invoke (Call_query (lit "owner") (lit "db") (lit "SELECT 1")))
      (sample_state (Resolved empty_list_response)).
Proof.
  exact (proj1 (earlier_calls_behave_the_same
                  (Some (lit "secret")) (network_answering (Rejected connection_refused))
                  (network_answering (Rejected connection_refused))
                  (network_answering (Rejected connection_refused))
                  (mkDBHub (lit "https://api.dbhub.io") get_endpoints_earlier (lit "secret"))
                  sample_client
                  (Earlier_query (lit "owner") (lit "db") (lit "SELECT 1"))
                  (network_answering (Resolved empty_list_response))
                  eq_refl eq_refl)).
Defined.

(** ** The encoding of the SQL text loses nothing *)

Lemma in_byte_range (a : N) : a <= 0xFF -> In a byte_range.
Proof.
  intros H. unfold byte_range. rewrite <- (N2Nat.id a).
  apply in_map, in_seq. lia.
Qed.

Lemma check_first_pair_holds (a b : N) :
  a <= 0xFF -> b <= 0xFF -> check_first_pair a b = true.
Proof.
  assert (H : forallb (fun a => forallb (check_first_pair a) byte_range) byte_range = true)
    by (vm_compute; reflexivity).
  intros Ha Hb. rewrite forallb_forall in H.
  specialize (H a (in_byte_range a Ha)). rewrite forallb_forall in H.
  exact (H b (in_byte_range b Hb)).
Qed.

Lemma check_last_pair_holds (b c : N) :
  b <= 0xFF -> c <= 0xFF -> check_last_pair b c = true.
Proof.
  assert (H : forallb (fun b => forallb (check_last_pair b) byte_range) byte_range = true)
    by (vm_compute; reflexivity).
  intros Hb Hc. rewrite forallb_forall in H.
  specialize (H b (in_byte_range b Hb)). rewrite forallb_forall in H.
  exact (H c (in_byte_range c Hc)).
Qed.

Lemma first_pair_facts (a b : N) :
  a <= 0xFF -> b <= 0xFF ->
  base64_index (base64_char (N.shiftr a 2)) = N.shiftr a 2
  /\ base64_index
       (base64_char (N.lor (N.shiftl (N.land a 3) 4) (N.shiftr b 4)))
     = N.lor (N.shiftl (N.land a 3) 4) (N.shiftr b 4)
  /\ N.lor (N.shiftl (N.shiftr a 2) 2)
       (N.shiftr (N.lor (N.shiftl (N.land a 3) 4) (N.shiftr b 4)) 4) = a
  /\ N.land (N.lor (N.shiftl (N.land a 3) 4) (N.shiftr b 4)) 15 = N.shiftr b 4.
Proof.
  intros Ha Hb. pose proof (check_first_pair_holds a b Ha Hb) as H.
  unfold check_first_pair in H. cbv zeta in H.
  rewrite !andb_true_iff, !N.eqb_eq in H. tauto.
Qed.

Lemma last_pair_facts (b c : N) :
  b <= 0xFF -> c <= 0xFF ->
  base64_index
    (base64_char (N.lor (N.shiftl (N.land b 15) 2) (N.shiftr c 6)))
  = N.lor (N.shiftl (N.land b 15) 2) (N.shiftr c 6)
  /\ base64_index (base64_char (N.land c 63)) = N.land c 63
  /\ (base64_char (N.lor (N.shiftl (N.land b 15) 2) (N.shiftr c 6)) =? pad) = false
  /\ (base64_char (N.land c 63) =? pad) = false
  /\ N.lor (N.shiftl (N.shiftr b 4) 4)
       (N.shiftr (N.lor (N.shiftl (N.land b 15) 2) (N.shiftr c 6)) 2) = b
  /\ N.lor (N.shiftl (N.land (N.lor (N.shiftl (N.land b 15) 2) (N.shiftr c 6)) 3) 6)
       (N.land c 63) = c.
Proof.
  intros Hb Hc. pose proof (check_last_pair_holds b c Hb Hc) as H.
  unfold check_last_pair in H. cbv zeta in H.
  rewrite !andb_true_iff, !negb_true_iff, !N.eqb_eq in H. tauto.
Qed.

Lemma base64_decode_group (c0 c1 c2 c3 : N) (rest : jsstring) :
  base64_decode (c0 :: c1 :: c2 :: c3 :: rest)
  = if c2 =? pad
    then [ N.lor (N.shiftl (base64_index c0) 2) (N.shiftr (base64_index c1) 4) ]
    else if c3 =? pad
    then [ N.lor (N.shiftl (base64_index c0) 2) (N.shiftr (base64_index c1) 4);
           N.lor (N.shiftl (N.land (base64_index c1) 15) 4)
             (N.shiftr (base64_index c2) 2) ]
    else N.lor (N.shiftl (base64_index c0) 2) (N.shiftr (base64_index c1) 4)
         :: N.lor (N.shiftl (N.land (base64_index c1) 15) 4)
              (N.shiftr (base64_index c2) 2)
         :: N.lor (N.shiftl (N.land (base64_index c2) 3) 6) (base64_index c3)
         :: base64_decode rest.
Proof. reflexivity. Qed.

Lemma base64_decode_encode (bytes : list N) :
  forallb is_latin1 bytes = true ->
  base64_decode (base64_encode bytes) = bytes.
Proof.
  assert (Hzero : 0 <= 0xFF) by lia.
  induction bytes as [| a | a b | a b c rest IH] using list_ind3; intros Hall.
  - reflexivity.
  - cbn [forallb] in Hall. rewrite !andb_true_iff in Hall.
    destruct Hall as [Ha _]. apply N.leb_le in Ha.
    destruct (first_pair_facts a 0 Ha Hzero) as [F0 [F1 [F2 _]]].
    change (N.shiftr 0 4) with 0 in F1, F2. rewrite N.lor_0_r in F1, F2.
    change (base64_encode [a])
      with [ base64_char (N.shiftr a 2); base64_char (N.shiftl (N.land a 3) 4);
             pad; pad ].
    rewrite base64_decode_group, N.eqb_refl, F0, F1, F2. reflexivity.
  - cbn [forallb] in Hall. rewrite !andb_true_iff in Hall.
    destruct Hall as [Ha [Hb _]]. apply N.leb_le in Ha, Hb.
    destruct (first_pair_facts a b Ha Hb) as [F0 [F1 [F2 F3]]].
    destruct (last_pair_facts b 0 Hb Hzero) as [L0 [_ [L2 [_ [L4 _]]]]].
    change (N.shiftr 0 6) with 0 in L0, L2, L4. rewrite N.lor_0_r in L0, L2, L4.
    change (base64_encode [a; b])
      with [ base64_char (N.shiftr a 2);
             base64_char (N.lor (N.shiftl (N.land a 3) 4) (N.shiftr b 4));
             base64_char (N.shiftl (N.land b 15) 2); pad ].
    rewrite base64_decode_group, L2, N.eqb_refl, F0, F1, L0, F2, F3, L4. reflexivity.
  - cbn [forallb] in Hall. rewrite !andb_true_iff in Hall.
    destruct Hall as [Ha [Hb [Hc Hrest]]]. apply N.leb_le in Ha, Hb, Hc.
    destruct (first_pair_facts a b Ha Hb) as [F0 [F1 [F2 F3]]].
    destruct (last_pair_facts b c Hb Hc) as [L0 [L1 [L2 [L3 [L4 L5]]]]].
    change (base64_encode (a :: b :: c :: rest))
      with (base64_char (N.shiftr a 2)
            :: base64_char (N.lor (N.shiftl (N.land a 3) 4) (N.shiftr b 4))
            :: base64_char (N.lor (N.shiftl (N.land b 15) 2) (N.shiftr c 6))
            :: base64_char (N.land c 63) :: base64_encode rest).
    rewrite base64_decode_group, L2, L3, F0, F1, L0, L1, F2, F3, L4, L5, (IH Hrest).
    reflexivity.
Qed.

Lemma sql_field_of_request (c : call) (sql : jsstring) (st : State) (req : Request) :
  sql_of c = Some sql ->
  In req (requests_of (invoke c) st) ->
  forallb is_latin1 sql = true
  /\ FormData_get (req_body req) (lit "sql") = Some (base64_encode sql).
Proof.
  intros Hsql. rewrite requests_of_invoke. unfold request_of.
  destruct c; cbn [sql_of] in Hsql; try discriminate; injection Hsql as ->;
    cbn [shape_of]; unfold btoa; destruct (forallb is_latin1 sql);
    cbn [sent_entries ToString In]; try contradiction;
    rewrite to_usv_base64_encode; intros [<- | []]; split; reflexivity.
Qed.

(** X11.  The encoding of the SQL text loses nothing: when two calls of
    [query] or [execute] send the same [sql] field, they were given the
    same SQL text. *)
Theorem sql_encoding_is_lossless
    (c1 c2 : call) (sql1 sql2 : jsstring) (st1 st2 : State) (req1 req2 : Request) :
  sql_of c1 = Some sql1 ->
  sql_of c2 = Some sql2 ->
  In req1 (requests_of (invoke c1) st1) ->
  In req2 (requests_of (invoke c2) st2) ->
  FormData_get (req_body req1) (lit "sql") = FormData_get (req_body req2) (lit "sql") ->
  sql1 = sql2.
Proof.
  intros Hs1 Hs2 Hin1 Hin2 Heq.
  destruct (sql_field_of_request c1 sql1 st1 req1 Hs1 Hin1) as [Hl1 Hf1].
  destruct (sql_field_of_request c2 sql2 st2 req2 Hs2 Hin2) as [Hl2 Hf2].
  rewrite Hf1, Hf2 in Heq. injection Heq as Heq.
  rewrite <- (base64_decode_encode sql1 Hl1), <- (base64_decode_encode sql2 Hl2).
  now rewrite Heq.
Qed.

Lemma sql_encoding_is_lossless_witness : lit "SELECT 1" = lit "SELECT 1".
Proof.
  exact (sql_encoding_is_lossless
           (Call_query (lit "owner") (lit "db") (lit "SELECT 1"))
           (Call_execute (lit "other") (lit "db2") (lit "SELECT 1"))
           (lit "SELECT 1") (lit "SELECT 1")
           (sample_state (Resolved empty_list_response))
           (sample_state (Rejected connection_refused))
           (mkRequest (lit "https://api.dbhub.io/v1/query") (lit "POST")
              [ (lit "apikey", lit "secret"); (lit "dbowner", lit "owner");
                (lit "dbname", lit "db"); (lit "sql", lit "U0VMRUNUIDE=") ])
           (mkRequest (lit "https://api.dbhub.io/v1/execute") (lit "POST")
              [ (lit "apikey", lit "secret"); (lit "dbowner", lit "other");
                (lit "dbname", lit "db2"); (lit "sql", lit "U0VMRUNUIDE=") ])
           eq_refl eq_refl (or_introl eq_refl) (or_introl eq_refl) eq_refl).
Defined.

(** ** Identifiers *)

(** X12.  [get_branches], [get_columns] and [get_commits] send the owner,
    the database name and, for the columns, the table in that order after
    the key, each as a USVString: a well-formed identifier goes out exactly
    as it was given, none is checked, trimmed or encoded, and an empty one
    is sent empty; only an unpaired surrogate is replaced, by U+FFFD. *)
Theorem identifiers_sent_verbatim (dbowner dbname table : jsstring) (st : State) :
  requests_of (get_branches dbowner dbname) st
  = [ mkRequest (endpoint_url (this st) "branches") (lit "POST")
        [ (lit "apikey", to_usv (api_key (this st))); (lit "dbowner", to_usv dbowner);
          (lit "dbname", to_usv dbname) ] ]
  /\ requests_of (get_columns dbowner dbname table) st
     = [ mkRequest (endpoint_url (this st) "columns") (lit "POST")
           [ (lit "apikey", to_usv (api_key (this st))); (lit "dbowner", to_usv dbowner);
             (lit "dbname", to_usv dbname); (lit "table", to_usv table) ] ]
  /\ requests_of (get_commits dbowner dbname) st
     = [ mkRequest (endpoint_url (this st) "commits") (lit "POST")
           [ (lit "apikey", to_usv (api_key (this st))); (lit "dbowner", to_usv dbowner);
             (lit "dbname", to_usv dbname) ] ]
  /\ (forall identifier, well_formed identifier = true -> to_usv identifier = identifier).
Proof.
  split; [| split; [| split]].
  - exact (requests_of_invoke (Call_get_branches dbowner dbname) st).
  - exact (requests_of_invoke (Call_get_columns dbowner dbname table) st).
  - exact (requests_of_invoke (Call_get_commits dbowner dbname) st).
  - exact to_usv_well_formed.
Qed.

Lemma identifiers_sent_verbatim_witness :
  requests_of (get_commits [ 0x6F; 0xD83D ] (lit "db"))
    (sample_state (Resolved empty_list_response))
  = [ mkRequest (lit "https://api.dbhub.io/v1/commits") (lit "POST")
        [ (lit "apikey", lit "secret"); (lit "dbowner", [ 0x6F; 0xFFFD ]);
          (lit "dbname", lit "db") ] ]
  /\ to_usv [ 0x6F; 0xD83D; 0xDE00 ] = [ 0x6F; 0xD83D; 0xDE00 ].
Proof.
  split.
  - exact (proj1 (proj2 (proj2 (identifiers_sent_verbatim [ 0x6F; 0xD83D ] (lit "db") []
                                  (sample_state (Resolved empty_list_response)))))).
  - exact (proj2 (proj2 (proj2 (identifiers_sent_verbatim [] [] []
                                  (sample_state (Resolved empty_list_response)))))
             [ 0x6F; 0xD83D; 0xDE00 ] eq_refl).
Defined.
